(** * DevOps helper agent: memory and context-assembly pipeline

    A shallow embedding of [app/agent.py]: the helper [hash_text]
    (lines 52-53), the Memory Manager ([add_memory], lines 58-72, and
    [recall_memory], lines 74-86), the Document Retriever ([search_docs],
    lines 91-103), the Query Rephraser ([rephrase_query], lines 108-122), the
    Generation Client ([query_ollama], lines 127-164), the Context Assembler
    ([build_context], lines 169-179) and the conversation loop
    (lines 186-209).

    Conventions.
    - A Python [str] is a [string] holding the UTF-8 encoding of the text, so
      [text.encode("utf-8")] is the underlying byte sequence.  A [str] with a
      lone surrogate, which has no UTF-8 encoding, is not a value of the
      model.
    - Python [int]s are [Z].
    - A statement is a function from the state of the process to a result,
      a value or an exception, and the state after it.  Exceptions are the
      instances of [Exception], which is what the handlers of [agent.py]
      are written for.
    - The external collaborators (embedding model, faults and ranking of the
      vector store, Static KB, generation service, JSON decoder, clock) are
      the fields of a record of oracles; the code of [agent.py] is a function
      of them.
    - Console output ([print]) is not part of the state: no statement below
      observes it. *)

From Stdlib Require Import ZArith QArith String Ascii List Lia.
From stdpp Require Import gmap strings list pretty.

Local Open Scope Z_scope.
Set Warnings "-register-all".

(** ** Bytes and text *)

Definition NL : string := String "010"%char EmptyString.

Definition ascii_code (a : ascii) : Z := Z.of_N (N_of_ascii a).
Definition ascii_of_code (b : Z) : ascii := ascii_of_N (Z.to_N b).

(** [text.encode("utf-8")] *)
Definition bytes_of_str (s : string) : list Z :=
  ascii_code <$> list_ascii_of_string s.

Definition str_of_bytes (bs : list Z) : string :=
  string_of_list_ascii (ascii_of_code <$> bs).

(** ** MD5 (RFC 1321), as computed by [hashlib.md5] *)

Module MD5.

Definition w32 (x : Z) : Z := Z.land x 0xFFFFFFFF.
Definition not32 (x : Z) : Z := Z.lxor x 0xFFFFFFFF.
Definition rotl (x s : Z) : Z :=
  w32 (Z.lor (Z.shiftl x s) (Z.shiftr x (32 - s))).

Definition K : list Z :=
  [ 0xd76aa478; 0xe8c7b756; 0x242070db; 0xc1bdceee;
    0xf57c0faf; 0x4787c62a; 0xa8304613; 0xfd469501;
    0x698098d8; 0x8b44f7af; 0xffff5bb1; 0x895cd7be;
    0x6b901122; 0xfd987193; 0xa679438e; 0x49b40821;
    0xf61e2562; 0xc040b340; 0x265e5a51; 0xe9b6c7aa;
    0xd62f105d; 0x02441453; 0xd8a1e681; 0xe7d3fbc8;
    0x21e1cde6; 0xc33707d6; 0xf4d50d87; 0x455a14ed;
    0xa9e3e905; 0xfcefa3f8; 0x676f02d9; 0x8d2a4c8a;
    0xfffa3942; 0x8771f681; 0x6d9d6122; 0xfde5380c;
    0xa4beea44; 0x4bdecfa9; 0xf6bb4b60; 0xbebfbc70;
    0x289b7ec6; 0xeaa127fa; 0xd4ef3085; 0x04881d05;
    0xd9d4d039; 0xe6db99e5; 0x1fa27cf8; 0xc4ac5665;
    0xf4292244; 0x432aff97; 0xab9423a7; 0xfc93a039;
    0x655b59c3; 0x8f0ccc92; 0xffeff47d; 0x85845dd1;
    0x6fa87e4f; 0xfe2ce6e0; 0xa3014314; 0x4e0811a1;
    0xf7537e82; 0xbd3af235; 0x2ad7d2bb; 0xeb86d391 ].

Definition S : list Z :=
  [ 7; 12; 17; 22; 7; 12; 17; 22; 7; 12; 17; 22; 7; 12; 17; 22;
    5; 9; 14; 20; 5; 9; 14; 20; 5; 9; 14; 20; 5; 9; 14; 20;
    4; 11; 16; 23; 4; 11; 16; 23; 4; 11; 16; 23; 4; 11; 16; 23;
    6; 10; 15; 21; 6; 10; 15; 21; 6; 10; 15; 21; 6; 10; 15; 21 ].

Record state := State { sA : Z; sB : Z; sC : Z; sD : Z }.

Definition init : state :=
  State 0x67452301 0xefcdab89 0x98badcfe 0x10325476.

(** The message with the 1 bit, the zero fill up to 56 mod 64 and the
    64-bit little-endian bit length. *)
Definition le_bytes (n : nat) (x : Z) : list Z :=
  (fun i => Z.land (Z.shiftr x (8 * Z.of_nat i)) 0xFF) <$> seq 0 n.

Definition pad (msg : list Z) : list Z :=
  let len := Z.of_nat (length msg) in
  let fill := Z.to_nat ((55 - len) mod 64) in
  msg ++ [0x80] ++ replicate fill 0 ++ le_bytes 8 (Z.land (8 * len) 0xFFFFFFFFFFFFFFFF).

Definition word_le (bs : list Z) : Z :=
  foldr (fun b acc => b + 256 * acc) 0 bs.

Fixpoint words (n : nat) (bs : list Z) : list Z :=
  match n with
  | O => []
  | Datatypes.S n' => word_le (take 4 bs) :: words n' (drop 4 bs)
  end.

Definition step (M : list Z) (st : state) (i : nat) : state :=
  let '(State a b c d) := st in
  let iz := Z.of_nat i in
  let '(f, g) :=
    if iz <? 16 then (Z.lor (Z.land b c) (Z.land (not32 b) d), iz)
    else if iz <? 32 then (Z.lor (Z.land d b) (Z.land (not32 d) c), (5 * iz + 1) mod 16)
    else if iz <? 48 then (Z.lxor (Z.lxor b c) d, (3 * iz + 5) mod 16)
    else (Z.lxor c (Z.lor b (not32 d)), (7 * iz) mod 16) in
  let f' := w32 (f + a + nth i K 0 + nth (Z.to_nat g) M 0) in
  State d (w32 (b + rotl f' (nth i S 0))) b c.

Definition compress (st : state) (block : list Z) : state :=
  let M := words 16 block in
  let '(State a b c d) := foldl (step M) st (seq 0 64) in
  State (w32 (sA st + a)) (w32 (sB st + b)) (w32 (sC st + c)) (w32 (sD st + d)).

Fixpoint blocks (n : nat) (st : state) (bs : list Z) : state :=
  match n with
  | O => st
  | Datatypes.S n' => blocks n' (compress st (take 64 bs)) (drop 64 bs)
  end.

Definition digest (msg : list Z) : list Z :=
  let p := pad msg in
  let '(State a b c d) := blocks (length p / 64)%nat init p in
  le_bytes 4 a ++ le_bytes 4 b ++ le_bytes 4 c ++ le_bytes 4 d.

Definition hex_digit (n : Z) : ascii :=
  if n <? 10 then ascii_of_code (48 + n) else ascii_of_code (87 + n).

Definition hex_byte (b : Z) : list ascii :=
  [hex_digit (Z.shiftr b 4); hex_digit (Z.land b 0xF)].

(** [hashlib.md5(data).hexdigest()] *)
Definition hexdigest (msg : list Z) : string :=
  string_of_list_ascii (mbind hex_byte (digest msg)).

End MD5.

(** The characters [0] to [9] and [a] to [f]. *)
Definition is_hex_digit (a : ascii) : bool :=
  let b := ascii_code a in
  ((48 <=? b) && (b <=? 57)) || ((97 <=? b) && (b <=? 102)).

(** ** Python string operations *)

(** Code points of a UTF-8 byte sequence.  A byte that cannot start or
    continue a character decodes to U+FFFD. *)
Fixpoint utf8_decode (bs : list Z) : list Z :=
  match bs with
  | [] => []
  | b0 :: r0 =>
    if b0 <? 0x80 then b0 :: utf8_decode r0
    else if b0 <? 0xC0 then 0xFFFD :: utf8_decode r0
    else if b0 <? 0xE0 then
      match r0 with
      | b1 :: r1 =>
        (Z.shiftl (Z.land b0 0x1F) 6 + Z.land b1 0x3F) :: utf8_decode r1
      | _ => [0xFFFD]
      end
    else if b0 <? 0xF0 then
      match r0 with
      | b1 :: b2 :: r2 =>
        (Z.shiftl (Z.land b0 0x0F) 12 + Z.shiftl (Z.land b1 0x3F) 6
         + Z.land b2 0x3F) :: utf8_decode r2
      | _ => [0xFFFD]
      end
    else
      match r0 with
      | b1 :: b2 :: b3 :: r3 =>
        (Z.shiftl (Z.land b0 0x07) 18 + Z.shiftl (Z.land b1 0x3F) 12
         + Z.shiftl (Z.land b2 0x3F) 6 + Z.land b3 0x3F) :: utf8_decode r3
      | _ => [0xFFFD]
      end
  end.

Definition utf8_encode (c : Z) : list Z :=
  if c <? 0x80 then [c]
  else if c <? 0x800 then
    [0xC0 + Z.shiftr c 6; 0x80 + Z.land c 0x3F]
  else if c <? 0x10000 then
    [0xE0 + Z.shiftr c 12; 0x80 + Z.land (Z.shiftr c 6) 0x3F; 0x80 + Z.land c 0x3F]
  else
    [0xF0 + Z.shiftr c 18; 0x80 + Z.land (Z.shiftr c 12) 0x3F;
     0x80 + Z.land (Z.shiftr c 6) 0x3F; 0x80 + Z.land c 0x3F].

Definition chars (s : string) : list Z := utf8_decode (bytes_of_str s).
Definition str_of_chars (cs : list Z) : string :=
  str_of_bytes (mbind utf8_encode cs).

(** The code points for which [str.isspace] holds, which are those
    [str.split()] and [str.strip()] treat as whitespace. *)
Definition is_space (c : Z) : bool :=
  ((0x09 <=? c) && (c <=? 0x0D)) || ((0x1C <=? c) && (c <=? 0x20))
  || (c =? 0x85) || (c =? 0xA0) || (c =? 0x1680)
  || ((0x2000 <=? c) && (c <=? 0x200A))
  || (c =? 0x2028) || (c =? 0x2029) || (c =? 0x202F) || (c =? 0x205F)
  || (c =? 0x3000).

(** [s.split()]: the maximal runs of non-whitespace characters.  [cur] is
    the run being read. *)
Fixpoint split_ws (cur : list Z) (cs : list Z) : list (list Z) :=
  match cs with
  | [] => match cur with [] => [] | _ => [cur] end
  | c :: r =>
    if is_space c
    then match cur with [] => split_ws [] r | _ => cur :: split_ws [] r end
    else split_ws (cur ++ [c]) r
  end.

Definition py_split (s : string) : list string :=
  str_of_chars <$> split_ws [] (chars s).

Fixpoint lstrip_chars (cs : list Z) : list Z :=
  match cs with
  | c :: r => if is_space c then lstrip_chars r else cs
  | [] => []
  end.

(** [s.strip()] *)
Definition py_strip (s : string) : string :=
  str_of_chars (reverse (lstrip_chars (reverse (lstrip_chars (chars s))))).

(** [s.lower()] on the letters A to Z.  The loop compares the result with
    the words exit and quit only; no character outside A to Z lowers to one
    of their letters alone, so this decides the comparison as Python does. *)
Definition lower_ascii (a : ascii) : ascii :=
  let b := ascii_code a in
  if (65 <=? b) && (b <=? 90) then ascii_of_code (b + 32) else a.

Definition py_lower (s : string) : string :=
  string_of_list_ascii (lower_ascii <$> list_ascii_of_string s).

(** [sep.join(parts)] for a list of [str] *)
Definition join (sep : string) (parts : list string) : string :=
  String.concat sep parts.

(** [s[:n]] *)
Definition slice_to (n : nat) (s : string) : string := String.substring 0 n s.

(** ** Exceptions *)

(** An exception (an instance of a subclass of [Exception]): its class name
    and [str(e)]. *)
Record exn := Exn { exn_class : string; exn_str : string }.

Inductive result (A : Type) : Type :=
| Ok (a : A)
| Raise (e : exn).
Arguments Ok {A} a.
Arguments Raise {A} e.

Global Instance result_ret : MRet result := fun A a => Ok a.
Global Instance result_bind : MBind result := fun A B f m =>
  match m with
  | Ok a => f a
  | Raise e => Raise e
  end.

Definition DQ : string := String "034"%char EmptyString.

(** ** Values exchanged with the collaborators *)

(** A metadata value of the vector store. *)
Inductive scalar :=
| MStr (s : string)
| MInt (n : Z)
| MBool (b : bool).

Global Instance scalar_eq_dec : EqDecision scalar.
Proof. solve_decision. Defined.

Abbreviation Metadata := (gmap string scalar).

(** A stored record of a collection; the key under which it is stored is
    its id. *)
Record record (vector : Type) := Record_ {
  document : string;
  embedding : vector;
  metadata : Metadata }.
Arguments Record_ {vector} _ _ _.
Arguments document {vector} _.
Arguments embedding {vector} _.
Arguments metadata {vector} _.

(** One key of the dictionary a collection query returns: missing, [None],
    or one list of entries per query text. *)
Inductive field (A : Type) : Type :=
| Absent
| Null
| Batches (bs : list (list A)).
Arguments Absent {A}.
Arguments Null {A}.
Arguments Batches {A} bs.

(** The keys of a query result that [agent.py] reads (it reads neither the
    ids nor the distances).  An entry of a batch can be [None]: the store
    returns [None] as the metadata of a record that was added without
    metadata. *)
Record QueryResult := {
  documents : field (option string);
  metadatas : field (option Metadata) }.

(** A decoded JSON document. *)
Inductive json :=
| JNull
| JBool (b : bool)
| JInt (n : Z)
| JFloat (q : Q)
| JStr (s : string)
| JArr (items : list json)
| JObj (items : list (string * json)).

Definition type_name (j : json) : string :=
  match j with
  | JNull => "NoneType"
  | JBool _ => "bool"
  | JInt _ => "int"
  | JFloat _ => "float"
  | JStr _ => "str"
  | JArr _ => "list"
  | JObj _ => "dict"
  end.

(** A POST to the generation service. *)
Record request := {
  url : string;
  model : string;
  prompt : string;
  stream : bool;
  options : list (string * string) }.

(** What comes back: the status, what [res.json()] gives, and the lines
    [iter_lines] yields, after which it raises when [broken] is an
    exception. *)
Record response := {
  status_code : Z;
  body_json : result json;
  body_lines : list string;
  broken : option exn }.

(** The external collaborators. *)
Record services (vector : Type) := {
  (** [embedder.encode([text])[0].tolist()] *)
  encode : string -> result vector;
  (** [datetime.now().isoformat()] at the n-th reading of the clock *)
  now_isoformat : nat -> string;
  (** failure of an upsert of the Memory Store *)
  upsert_fault : gmap string (record vector) -> string -> record vector -> option exn;
  (** failure of a query of the Memory Store *)
  query_fault : gmap string (record vector) -> string -> Z -> option exn;
  (** the ids of the Memory Store by decreasing similarity to a text *)
  nearest : gmap string (record vector) -> string -> list string;
  (** [static_collection.query(query_texts=[q], n_results=n)] *)
  static_query : string -> Z -> result QueryResult;
  (** [requests.post], given the requests made before *)
  post : list request -> request -> result response;
  (** [json.loads] on a line of the stream: the decoded document, or the
      exception raised, which is a [JSONDecodeError] for a line that is no
      JSON and can be another one (a [UnicodeDecodeError] for a line that
      arrives as bytes, the [ValueError] of the limit on the digits of an
      integer) *)
  json_loads : string -> result json;
  (** failure of [print(token, end="", flush=True)] in the loop over the
      stream: a token the console cannot encode, such as one that the
      service sends with a lone surrogate *)
  print_fault : json -> option exn }.
Arguments encode {vector} _ _.
Arguments now_isoformat {vector} _ _.
Arguments upsert_fault {vector} _ _ _ _.
Arguments query_fault {vector} _ _ _ _.
Arguments nearest {vector} _ _ _.
Arguments static_query {vector} _ _ _.
Arguments post {vector} _ _ _.
Arguments json_loads {vector} _ _.
Arguments print_fault {vector} _ _.

(** The state of the process: the Memory Store, the short-term history, the
    requests made to the generation service and the clock. *)
Record world (vector : Type) := World {
  memory : gmap string (record vector);
  conversation_history : list (string * string);
  wire : list request;
  clock : nat }.
Arguments World {vector} _ _ _ _.
Arguments memory {vector} _.
Arguments conversation_history {vector} _.
Arguments wire {vector} _.
Arguments clock {vector} _.

(** ** Python operations on these values *)

(** [d[key]] on a query result *)
Definition getitem_key {A} (key : string) (f : field A) : result (option (list (list A))) :=
  match f with
  | Absent => Raise (Exn "KeyError" ("'" +:+ key +:+ "'"))
  | Null => Ok None
  | Batches bs => Ok (Some bs)
  end.

(** [d.get(key, default)] on a query result *)
Definition get_key {A} (f : field A) (dflt : list (list A)) : option (list (list A)) :=
  match f with
  | Absent => Some dflt
  | Null => None
  | Batches bs => Some bs
  end.

(** [x[0]] *)
Definition first {A} (x : option (list A)) : result A :=
  match x with
  | None => Raise (Exn "TypeError" "'NoneType' object is not subscriptable")
  | Some [] => Raise (Exn "IndexError" "list index out of range")
  | Some (a :: _) => Ok a
  end.

(** [l[i]] on a list, for an index from [enumerate] *)
Definition getitem_list {A} (l : list A) (i : nat) : result A :=
  match l !! i with
  | Some a => Ok a
  | None => Raise (Exn "IndexError" "list index out of range")
  end.

(** [m.get(key, default)] on an entry of [metadatas] *)
Definition meta_get (m : option Metadata) (key : string) (dflt : scalar) : result scalar :=
  match m with
  | None => Raise (Exn "AttributeError" "'NoneType' object has no attribute 'get'")
  | Some d => Ok (default dflt (d !! key))
  end.

(** [str(v)], as an f-string renders a metadata value *)
Definition str_scalar (v : scalar) : string :=
  match v with
  | MStr s => s
  | MInt n => pretty n
  | MBool true => "True"
  | MBool false => "False"
  end.

(** [str(doc)] for an entry of [documents] *)
Definition str_doc (d : option string) : string :=
  match d with
  | Some s => s
  | None => "None"
  end.

(** The items of [sep.join(l)]: each one must be a [str]. *)
Fixpoint str_items (i : nat) (l : list (option string)) : result (list string) :=
  match l with
  | [] => Ok []
  | Some s :: r => r' ← str_items (S i) r; Ok (s :: r')
  | None :: _ =>
    Raise (Exn "TypeError"
      ("sequence item " +:+ pretty i +:+ ": expected str instance, NoneType found"))
  end.

Definition py_join (sep : string) (l : list (option string)) : result string :=
  parts ← str_items 0 l; Ok (join sep parts).

(** [l[start:]] *)
Definition slice_from {A} (start : Z) (l : list A) : list A :=
  let len := Z.of_nat (length l) in
  let start' := if start <? 0 then Z.max 0 (len + start) else start in
  drop (Z.to_nat start') l.

(** [d.get(key, default)] on a decoded JSON value *)
Fixpoint assoc (key : string) (items : list (string * json)) : option json :=
  match items with
  | [] => None
  | (k, v) :: r => if String.eqb k key then Some v else assoc key r
  end.

Definition json_get (data : json) (key : string) (dflt : json) : result json :=
  match data with
  | JObj items => Ok (default dflt (assoc key items))
  | _ => Raise (Exn "AttributeError"
           ("'" +:+ type_name data +:+ "' object has no attribute 'get'"))
  end.

(** [data[key]] on a decoded JSON value, for a [str] key *)
Definition json_getitem (data : json) (key : string) : result json :=
  match data with
  | JObj items =>
    match assoc key items with
    | Some v => Ok v
    | None => Raise (Exn "KeyError" ("'" +:+ key +:+ "'"))
    end
  | JArr _ => Raise (Exn "TypeError" "list indices must be integers or slices, not str")
  | JStr _ => Raise (Exn "TypeError" "string indices must be integers, not 'str'")
  | _ => Raise (Exn "TypeError" ("'" +:+ type_name data +:+ "' object is not subscriptable"))
  end.

(** [v.strip()] *)
Definition json_strip (v : json) : result string :=
  match v with
  | JStr s => Ok (py_strip s)
  | _ => Raise (Exn "AttributeError"
           ("'" +:+ type_name v +:+ "' object has no attribute 'strip'"))
  end.

(** [answer += token] for a [str] answer *)
Definition str_iadd (answer : string) (token : json) : result string :=
  match token with
  | JStr t => Ok (answer +:+ t)
  | _ => Raise (Exn "TypeError"
           ("can only concatenate str (not " +:+ DQ +:+ type_name token +:+ DQ +:+ ") to str"))
  end.

(** [res.ok]: [raise_for_status] raises for 400 to 599. *)
Definition ok (res : response) : bool :=
  negb ((400 <=? status_code res) && (status_code res <? 600)).

(** A statement that returns nothing. *)
Definition check (o : option exn) : result unit :=
  match o with
  | Some e => Raise e
  | None => Ok ()
  end.

(** [except json.JSONDecodeError]: the handler takes the exceptions of this
    class. *)
Definition is_json_decode_error (e : exn) : bool :=
  String.eqb (exn_class e) "JSONDecodeError".

(** ** Configuration *)

Definition OLLAMA_API : string := "http://localhost:11434/api/generate".
Definition MODEL_NAME : string := "llama3".
Definition MAX_CONTEXT_DOCS : Z := 5.
Definition MEMORY_SIZE : Z := 3.
Definition USER_ID : string := "onkar".

(** [hash_text] (lines 52-53):
    [hashlib.md5(text.encode("utf-8")).hexdigest()] *)
Definition hash_text (text : string) : string :=
  MD5.hexdigest (bytes_of_str text).

(** The id of a memory record: [f"{user_id}_{role}_{hash_text(text)[:8]}"] *)
Definition mem_id (user_id role text : string) : string :=
  user_id +:+ "_" +:+ role +:+ "_" +:+ slice_to 8 (hash_text text).

(** The [where] clause of a query: every key must have the given value. *)
Definition matches_where {vector} (where_ : list (string * scalar)) (r : record vector) : bool :=
  forallb (fun kv => bool_decide (metadata r !! kv.1 = Some kv.2)) where_.

(** The prompt of [query_ollama]. *)
Definition answer_prompt (prompt_ context : string) : string :=
  "You are a DevOps expert assistant." +:+ NL +:+
  "Use the provided context (memory + docs) to give accurate, step-by-step answers." +:+ NL +:+
  "If context is missing, answer with your own knowledge." +:+ NL +:+
  NL +:+
  "Context:" +:+ NL +:+
  context +:+ NL +:+
  NL +:+
  "User question:" +:+ NL +:+
  prompt_ +:+ NL +:+
  NL +:+
  "Answer clearly:".

(** One turn of the short-term section: [f"User: {q}\nAgent: {a}"] *)
Definition format_turn (t : string * string) : string :=
  "User: " +:+ t.1 +:+ NL +:+ "Agent: " +:+ t.2.

(** The metadata of a memory record:
    [{"user_id": user_id, "role": role, "timestamp": timestamp}] *)
Definition memory_metadata (user_id role timestamp : string) : Metadata :=
  <["user_id" := MStr user_id]>
    (<["role" := MStr role]> (<["timestamp" := MStr timestamp]> ∅)).

(** The generation fails: the request raises, or the status is not 200.
    The second component is the answer [query_ollama] then returns. *)
Inductive generation_failed : result response -> string -> Prop :=
| transport_error (e : exn) :
    generation_failed (Raise e) ("[ERROR] Ollama request failed: " +:+ exn_str e)
| bad_status (res : response) :
    status_code res ≠ 200 ->
    generation_failed (Ok res) ("[ERROR] Ollama returned " +:+ pretty (status_code res)).

Section Agent.

Context {vector : Type} (sv : services vector).

(** *** Computations: state and exceptions

    A statement runs in a world and ends with a value or an exception; in
    both cases the world keeps what was done before. *)
Definition M (A : Type) : Type := world vector -> result A * world vector.

#[export] Instance M_ret : MRet M := fun A a w => (Ok a, w).
#[export] Instance M_bind : MBind M := fun A B f m w =>
  match m w with
  | (Ok a, w') => f a w'
  | (Raise e, w') => (Raise e, w')
  end.

Definition lift {A} (r : result A) : M A := fun w => (r, w).

(** [try: body / except Exception as e: handler(e)] *)
Definition try_except {A} (body : M A) (handler : exn -> M A) : M A := fun w =>
  match body w with
  | (Ok a, w') => (Ok a, w')
  | (Raise e, w') => handler e w'
  end.

(** *** The collaborators as statements *)

Definition embedder_encode (text : string) : M vector :=
  lift (encode sv text).

Definition datetime_now_isoformat : M string := fun w =>
  (Ok (now_isoformat sv (clock w)),
   World (memory w) (conversation_history w) (wire w) (S (clock w))).

(** Modelled from the spec: the Memory Store is a collection of the vector
    store, an external library whose code is not part of the repository.
    Section 6 of the spec gives its contract: [upsert] is by id, a record
    with the same id is overwritten; [query] returns the nearest records
    that pass the metadata filter, ranked, at most [n_results] of them.
    Either call can fail.

    [memory_collection.upsert(documents=[doc], embeddings=[emb], ids=[id],
    metadatas=[meta])] *)
Definition memory_upsert (id : string) (r : record vector) : M unit := fun w =>
  match upsert_fault sv (memory w) id r with
  | Some e => (Raise e, w)
  | None =>
    (Ok (), World (<[id := r]> (memory w)) (conversation_history w) (wire w) (clock w))
  end.

(** Modelled from the spec: the records a query of the Memory Store
    selects, which are those of the ranking that pass the filter, the first
    [n_results] of them.  The ranking itself is left to the oracle
    [nearest]. *)
Definition memory_hits (m : gmap string (record vector)) (query_text : string)
    (n_results : Z) (where_ : list (string * scalar)) : list (record vector) :=
  take (Z.to_nat n_results)
    (List.filter (matches_where where_)
       (omap (fun id => m !! id) (nearest sv m query_text))).

(** Modelled from the spec:
    [memory_collection.query(query_texts=[q], n_results=n, where=w)].  The
    store rejects a number of results that is not positive. *)
Definition memory_query (query_text : string) (n_results : Z)
    (where_ : list (string * scalar)) : M QueryResult := fun w =>
  match query_fault sv (memory w) query_text n_results with
  | Some e => (Raise e, w)
  | None =>
    if n_results <=? 0 then
      (Raise (Exn "TypeError"
         ("Number of requested results " +:+ pretty n_results
          +:+ ", cannot be negative, or zero.")), w)
    else
      let hits := memory_hits (memory w) query_text n_results where_ in
      (Ok {| documents := Batches [(fun r => Some (document r)) <$> hits];
             metadatas := Batches [(fun r => Some (metadata r)) <$> hits] |}, w)
  end.

Definition requests_post (r : request) : M response := fun w =>
  (post sv (wire w) r,
   World (memory w) (conversation_history w) (wire w ++ [r]) (clock w)).

(** [conversation_history.append(turn)] *)
Definition history_append (t : string * string) : M unit := fun w =>
  (Ok (), World (memory w) (conversation_history w ++ [t]) (wire w) (clock w)).

Definition history : M (list (string * string)) := fun w =>
  (Ok (conversation_history w), w).

(** *** Memory handling *)

(** [add_memory] (lines 58-72): the statements in the order of the source,
    embedding, id, metadata with the time of the call, upsert. *)
Definition add_memory (user_id text role : string) : M unit :=
  embedding_ ← embedder_encode text;
  let id := mem_id user_id role text in
  timestamp ← datetime_now_isoformat;
  let metadata_ := memory_metadata user_id role timestamp in
  memory_upsert id (Record_ text embedding_ metadata_).

(** The record [add_memory] writes in a world, for an embedding. *)
Definition written (user_id text role : string) (v : vector) (w : world vector)
    : record vector :=
  Record_ text v (memory_metadata user_id role (now_isoformat sv (clock w))).

(** [recall_memory] (lines 74-86) *)
Definition recall_memory (user_id query : string) (top_k : Z) : M string :=
  try_except
    (results ← memory_query query top_k [("user_id", MStr user_id)];
     docs ← lift (first (get_key (documents results) [[]]));
     lift (py_join NL docs))
    (fun e => mret "").

(** The records whose texts [recall_memory] returns. *)
Definition recalled (user_id query : string) (top_k : Z) (w : world vector)
    : list (record vector) :=
  match query_fault sv (memory w) query top_k with
  | Some _ => []
  | None =>
    if top_k <=? 0 then []
    else memory_hits (memory w) query top_k [("user_id", MStr user_id)]
  end.

(** *** Smart search *)

(** [metadatas[i].get("source", "unknown") if metadatas else "unknown"] *)
Definition source_at (metas : list (option Metadata)) (i : nat) : result scalar :=
  match metas with
  | [] => Ok (MStr "unknown")
  | _ => m ← getitem_list metas i; meta_get m "source" (MStr "unknown")
  end.

(** The loop of [search_docs] over [enumerate(docs)], from index [i] on. *)
Fixpoint context_blocks (metas : list (option Metadata)) (i : nat)
    (docs : list (option string)) : result (list string) :=
  match docs with
  | [] => Ok []
  | doc :: rest =>
    source ← source_at metas i;
    let block := "[Source: " +:+ str_scalar source +:+ "]" +:+ NL +:+ str_doc doc in
    blocks ← context_blocks metas (S i) rest;
    Ok (block :: blocks)
  end.

(** What [search_docs] makes of the result of the query (lines 95-101). *)
Definition format_results (results : QueryResult) : result string :=
  docs ← (x ← getitem_key "documents" (documents results); first x);
  metas ← first (get_key (metadatas results) [[]]);
  blocks ← context_blocks metas 0 docs;
  Ok (join (NL +:+ NL) blocks).

(** [search_docs] (lines 91-103) *)
Definition search_docs (query_text : string) : M string :=
  try_except
    (results ← lift (static_query sv query_text MAX_CONTEXT_DOCS);
     lift (format_results results))
    (fun e => mret ("[ERROR] search_docs failed: " +:+ exn_str e)).

(** *** Query rephrasing *)

Definition rephrase_request (prompt_ : string) : request :=
  {| url := OLLAMA_API; model := MODEL_NAME;
     prompt := "Rephrase this for clarity: " +:+ prompt_;
     stream := false; options := [] |}.

(** [rephrase_query] (lines 108-122).  The bare [except] turns every
    failure of the request, of [res.json()], of the subscript and of
    [strip] into the fall-through to [return prompt]. *)
Definition rephrase_query (prompt_ : string) : M string :=
  if (length (py_split prompt_) <? 3)%nat then mret prompt_
  else
    r ← try_except
          (res ← requests_post (rephrase_request prompt_);
           if ok res then
             s ← lift (data ← body_json res;
                       v ← json_getitem data "response";
                       json_strip v);
             mret (Some s)
           else mret None)
          (fun e => mret None);
    match r with
    | Some s => mret s
    | None => mret prompt_
    end.

(** *** Query Ollama *)

Definition answer_request (prompt_ context : string) : request :=
  {| url := OLLAMA_API; model := MODEL_NAME;
     prompt := answer_prompt prompt_ context;
     stream := true;
     options := [("temperature", "0.6"); ("num_predict", "512"); ("top_k", "30")] |}.

(** [print(token, end="", flush=True)] *)
Definition print_token (token : json) : result unit :=
  check (print_fault sv token).

(** The body of the inner [try] (lines 155-158), which gives the new value
    of [answer]. *)
Definition read_line (answer line : string) : result string :=
  data ← json_loads sv line;
  token ← json_get data "response" (JStr "");
  print_token token;;
  str_iadd answer token.

(** The loop over [response.iter_lines(decode_unicode=True)]
    (lines 150-160): an empty line is skipped, and so is a line on which
    the body of the inner [try] raises a [JSONDecodeError]; any other
    exception leaves the loop. *)
Fixpoint read_lines (end_ : option exn) (answer : string) (lines : list string)
    : result string :=
  match lines with
  | [] => match end_ with
          | Some e => Raise e
          | None => Ok answer
          end
  | line :: rest =>
    if String.eqb line "" then read_lines end_ answer rest
    else match read_line answer line with
         | Ok answer' => read_lines end_ answer' rest
         | Raise e =>
           if is_json_decode_error e then read_lines end_ answer rest
           else Raise e
         end
  end.

(** [query_ollama] (lines 127-164) *)
Definition query_ollama (prompt_ context : string) : M string :=
  try_except
    (response_ ← requests_post (answer_request prompt_ context);
     if negb (status_code response_ =? 200) then
       mret ("[ERROR] Ollama returned " +:+ pretty (status_code response_))
     else
       answer ← lift (read_lines (broken response_) "" (body_lines response_));
       mret (py_strip answer))
    (fun e => mret ("[ERROR] Ollama request failed: " +:+ exn_str e)).

(** *** Context builder *)

(** [build_context] (lines 169-179) *)
Definition build_context (user_id user_query : string) : M string :=
  h ← history;
  let short_term := join NL (format_turn <$> slice_from (- MEMORY_SIZE) h) in
  long_term ← recall_memory user_id user_query 3;
  docs ← search_docs user_query;
  mret ("Short-term:" +:+ NL +:+ short_term +:+ NL +:+ NL +:+
        "Long-term memory:" +:+ NL +:+ long_term +:+ NL +:+ NL +:+
        "Docs:" +:+ NL +:+ docs).

(** *** Main loop *)

(** The world after a request to the generation service. *)
Definition sent (r : request) (w : world vector) : world vector :=
  World (memory w) (conversation_history w) (wire w ++ [r]) (clock w).

(** The end of the body of the loop (lines 203 to 207): the turn is appended
    to the history, then the query and the answer are written to the Memory
    Store. *)
Definition record_turn (query answer : string) : M unit :=
  history_append (query, answer);;
  add_memory USER_ID query "user";;
  add_memory USER_ID answer "agent".

(** The body of the loop (lines 196 to 207) for a query that is neither
    empty nor a command to leave. *)
Definition turn (query : string) : M unit :=
  refined_query ← rephrase_query query;
  context ← build_context USER_ID refined_query;
  answer ← query_ollama refined_query context;
  record_turn query answer.

(** The loop (lines 186-209) on the lines [input] reads; at the end of the
    input, [input] raises [EOFError]. *)
Fixpoint main_loop (inputs : list string) : M unit :=
  match inputs with
  | [] => lift (Raise (Exn "EOFError" "EOF when reading a line"))
  | line :: rest =>
    let query := py_strip line in
    if bool_decide (py_lower query ∈ ["exit"; "quit"]) then mret ()
    else if String.eqb query "" then main_loop rest
    else turn query;; main_loop rest
  end.

End Agent.

(** ** What the Document Retriever shows *)

(** The source shown for the chunk at rank [i]: the [source] field of its
    metadata, [unknown] without one. *)
Definition source_of (metas : list (option Metadata)) (i : nat) : string :=
  match metas !! i with
  | Some (Some m) =>
    match m !! "source" with
    | Some v => str_scalar v
    | None => "unknown"
    end
  | _ => "unknown"
  end.

Definition block_of (metas : list (option Metadata)) (i : nat) (doc : option string)
    : string :=
  "[Source: " +:+ source_of metas i +:+ "]" +:+ NL +:+ str_doc doc.

(** The result of the mocked store of the formatting example. *)
Definition example_results : QueryResult :=
  {| documents := Batches [[Some "doc1"; Some "doc2"]];
     metadatas := Batches [[Some {["source" := MStr "a.md"]}; Some ∅]] |}.

(** ** The rest of [agent.py]: replies, tokens and the lines of the loop *)

(** What a rephrasing request brings back: the stripped text of the
    [response] key of a JSON object, for a status that is not 400 to 599;
    nothing in every other case. *)
Definition rephrase_reply (outcome : result response) : option string :=
  match outcome with
  | Ok res =>
    if ok res then
      match body_json res with
      | Ok (JObj items) =>
        match assoc "response" items with
        | Some (JStr s) => Some (py_strip s)
        | _ => None
        end
      | _ => None
      end
    else None
  | Raise _ => None
  end.

Section AgentMore.
Context {vector : Type} (sv : services vector).

(** What a line of the stream adds to the answer: the token by which the
    body of the loop (lines 152-160) extends an empty answer, which is the
    empty string for a line that is skipped; or the exception with which the
    line ends the loop. *)
Definition line_token (line : string) : result string :=
  if String.eqb line "" then Ok ""
  else match read_line sv "" line with
       | Ok token => Ok token
       | Raise e => if is_json_decode_error e then Ok "" else Raise e
       end.
End AgentMore.

(** The queries of the turns the loop makes on these lines: the stripped
    lines up to the first command to leave, the empty ones left out. *)
Fixpoint asked (inputs : list string) : list string :=
  match inputs with
  | [] => []
  | line :: rest =>
    let query := py_strip line in
    if bool_decide (py_lower query ∈ ["exit"; "quit"]) then []
    else if String.eqb query "" then asked rest
    else query :: asked rest
  end.

(** ** The offline indexer ([build_index.py]) *)

Definition DATA_DIR : string := "./data".
Definition COLLECTION_NAME : string := "devops_mini".
Definition EMBEDDING_MODEL : string := "all-MiniLM-L6-v2".

(** [s.endswith(suffix)] *)
Definition py_endswith (s suffix : string) : bool :=
  let n := String.length s in
  let m := String.length suffix in
  (m <=? n)%nat && String.eqb (String.substring (n - m) m s) suffix.

(** [os.path.join(a, b)] on a POSIX system *)
Definition path_join (a b : string) : string :=
  if String.prefix "/" b then b
  else if String.eqb a "" || py_endswith a "/" then a +:+ b
  else a +:+ "/" +:+ b.

(** [f.endswith((".txt", ".md"))] *)
Definition is_text_file (f : string) : bool :=
  py_endswith f ".txt" || py_endswith f ".md".

(** The collaborators of the indexer.  [walk] is what [os.walk] yields: for
    every directory its path and the names of its files. *)
Record indexer (vector : Type) := {
  (** [PersistentClient(path=DB_DIR)] *)
  connect : option exn;
  (** [SentenceTransformer(name)] *)
  load_model : string -> option exn;
  get_collection : string -> option exn;
  create_collection : string -> option exn;
  walk : string -> list (string * list string);
  (** [open(path, "r", encoding="utf-8")] and [file.read()] *)
  read_text : string -> result string;
  (** [model.encode(docs, show_progress_bar=True).tolist()] *)
  encode_all : list string -> result (list vector);
  (** [collection.add(documents=docs, embeddings=embs, ids=ids)] *)
  collection_add : list string -> list vector -> list string -> option exn }.
Arguments connect {vector} _.
Arguments load_model {vector} _ _.
Arguments get_collection {vector} _ _.
Arguments create_collection {vector} _ _.
Arguments walk {vector} _ _.
Arguments read_text {vector} _ _.
Arguments encode_all {vector} _ _.
Arguments collection_add {vector} _ _ _ _.

(** How a run that does not crash ends: with [exit(0)] before anything is
    added, or after one call of [collection.add] with these documents,
    embeddings and ids, and no metadata.  [created] tells whether the
    collection was created by the run. *)
Inductive index_done (vector : Type) : Type :=
| Exit0 (created : bool)
| Added (created : bool) (docs : list string) (embeddings : list vector)
    (ids : list string).
Arguments Exit0 {vector} created.
Arguments Added {vector} created docs embeddings ids.

Section Indexer.
Context {vector : Type} (ix : indexer vector).

(** The body of the inner loop (lines 46-53), on the lists [docs] and
    [doc_ids]. *)
Definition index_file (root f : string) (st : list string * list string)
    : result (list string * list string) :=
  if is_text_file f then
    let path := path_join root f in
    raw ← read_text ix path;
    let text := py_strip raw in
    if String.eqb text "" then Ok st
    else Ok (st.1 ++ [text], st.2 ++ [path])
  else Ok st.

Fixpoint index_files (root : string) (files : list string)
    (st : list string * list string) : result (list string * list string) :=
  match files with
  | [] => Ok st
  | f :: more => st' ← index_file root f st; index_files root more st'
  end.

(** The loop over [os.walk(DATA_DIR)] (lines 44-53). *)
Fixpoint index_walk (dirs : list (string * list string))
    (st : list string * list string) : result (list string * list string) :=
  match dirs with
  | [] => Ok st
  | (root, files) :: more => st' ← index_files root files st; index_walk more st'
  end.

(** [build_index.py], from the connection to the call of [collection.add]. *)
Definition build_index : result (index_done vector) :=
  check (connect ix);;
  check (load_model ix EMBEDDING_MODEL);;
  created ← match get_collection ix COLLECTION_NAME with
            | None => Ok false
            | Some _ => check (create_collection ix COLLECTION_NAME);; Ok true
            end;
  st ← index_walk (walk ix DATA_DIR) ([], []);
  match st.1 with
  | [] => Ok (Exit0 created)
  | _ =>
    embeddings ← encode_all ix st.1;
    check (collection_add ix st.1 embeddings st.2);;
    Ok (Added created st.1 embeddings st.2)
  end.

(** The paths the loop opens, in the order of the walk. *)
Definition candidates (dirs : list (string * list string)) : list string :=
  dirs ≫= (fun d => path_join d.1 <$> List.filter is_text_file d.2).

(** The stripped text of a file. *)
Definition content (path : string) : string :=
  match read_text ix path with
  | Ok raw => py_strip raw
  | Raise _ => ""
  end.

Definition nonblank (path : string) : bool :=
  negb (String.eqb (content path) "").

(** The paths of the files that have text. *)
Definition indexed (dirs : list (string * list string)) : list string :=
  List.filter nonblank (candidates dirs).

End Indexer.

(** *** The calls of a run *)

(** The calls a run of the indexer makes to the vector store, to the
    embedding model and to the files, with their arguments. *)
Inductive call (vector : Type) : Type :=
| Connect
| LoadModel (name : string)
| GetCollection (name : string)
| CreateCollection (name : string)
| Open (path : string)
| Encode (docs : list string)
| Add (docs : list string) (embeddings : list vector) (ids : list string).
Arguments Connect {vector}.
Arguments LoadModel {vector} name.
Arguments GetCollection {vector} name.
Arguments CreateCollection {vector} name.
Arguments Open {vector} path.
Arguments Encode {vector} docs.
Arguments Add {vector} docs embeddings ids.

Section IndexerCalls.
Context {vector : Type} (ix : indexer vector).

(** A statement of the script, with the calls made so far: it adds its own
    calls to them, whether it ends with a value or with an exception. *)
Definition traced (A : Type) : Type :=
  list (call vector) -> result A * list (call vector).

#[export] Instance traced_ret : MRet traced := fun A a log => (Ok a, log).
#[export] Instance traced_bind : MBind traced := fun A B f m log =>
  match m log with
  | (Ok a, log') => f a log'
  | (Raise e, log') => (Raise e, log')
  end.

(** One call and its outcome. *)
Definition called {A} (c : call vector) (outcome : result A) : traced A :=
  fun log => (outcome, log ++ [c]).

(** The body of the inner loop (lines 46-53) with its call. *)
Definition traced_file (root f : string) (st : list string * list string)
    : traced (list string * list string) :=
  if is_text_file f then
    let path := path_join root f in
    raw ← called (Open path) (read_text ix path);
    let text := py_strip raw in
    if String.eqb text "" then mret st
    else mret (st.1 ++ [text], st.2 ++ [path])
  else mret st.

Fixpoint traced_files (root : string) (files : list string)
    (st : list string * list string) : traced (list string * list string) :=
  match files with
  | [] => mret st
  | f :: more => st' ← traced_file root f st; traced_files root more st'
  end.

Fixpoint traced_walk (dirs : list (string * list string))
    (st : list string * list string) : traced (list string * list string) :=
  match dirs with
  | [] => mret st
  | (root, files) :: more => st' ← traced_files root files st; traced_walk more st'
  end.

(** [build_index.py] with the calls it makes (lines 21-68). *)
Definition traced_index : traced (index_done vector) :=
  called Connect (check (connect ix));;
  called (LoadModel EMBEDDING_MODEL) (check (load_model ix EMBEDDING_MODEL));;
  created ← (fun log =>
               match get_collection ix COLLECTION_NAME with
               | None => (Ok false, log ++ [GetCollection COLLECTION_NAME])
               | Some _ =>
                 (called (CreateCollection COLLECTION_NAME)
                    (check (create_collection ix COLLECTION_NAME));;
                  mret true) (log ++ [GetCollection COLLECTION_NAME])
               end);
  st ← traced_walk (walk ix DATA_DIR) ([], []);
  match st.1 with
  | [] => mret (Exit0 created)
  | _ =>
    embeddings ← called (Encode st.1) (encode_all ix st.1);
    called (Add st.1 embeddings st.2) (check (collection_add ix st.1 embeddings st.2));;
    mret (Added created st.1 embeddings st.2)
  end.

(** The files of a list that a loop opens: those up to the first one that
    cannot be read, this one included. *)
Fixpoint attempted (paths : list string) : list string :=
  match paths with
  | [] => []
  | path :: more =>
    match read_text ix path with
    | Ok _ => path :: attempted more
    | Raise _ => [path]
    end
  end.

End IndexerCalls.

(** * A mocked environment *)

Definition with_post {V} (sv : services V)
    (p : list request -> request -> result response) : services V :=
  {| encode := encode sv; now_isoformat := now_isoformat sv;
     upsert_fault := upsert_fault sv; query_fault := query_fault sv;
     nearest := nearest sv; static_query := static_query sv;
     post := p; json_loads := json_loads sv; print_fault := print_fault sv |}.

Definition with_query_fault {V} (sv : services V)
    (f : gmap string (record V) -> string -> Z -> option exn) : services V :=
  {| encode := encode sv; now_isoformat := now_isoformat sv;
     upsert_fault := upsert_fault sv; query_fault := f;
     nearest := nearest sv; static_query := static_query sv;
     post := post sv; json_loads := json_loads sv;
     print_fault := print_fault sv |}.

Definition with_static_query {V} (sv : services V)
    (q : string -> Z -> result QueryResult) : services V :=
  {| encode := encode sv; now_isoformat := now_isoformat sv;
     upsert_fault := upsert_fault sv; query_fault := query_fault sv;
     nearest := nearest sv; static_query := q;
     post := post sv; json_loads := json_loads sv;
     print_fault := print_fault sv |}.

(** The answer of the mocked service to a rephrasing request. *)
Definition rephrased : json :=
  JObj [("response", JStr " How can I restart the nginx service? ")].

(** The mocked service: a rephrasing, or a stream of two tokens with an
    empty line and a line that is no JSON between them. *)
Definition mock_post (before : list request) (r : request) : result response :=
  if stream r then
    Ok {| status_code := 200; body_json := Raise (Exn "JSONDecodeError" "Extra data");
          body_lines := ["L1"; ""; "noise"; "L2"]; broken := None |}
  else
    Ok {| status_code := 200; body_json := Ok rephrased;
          body_lines := []; broken := None |}.

Definition mock_json_loads (line : string) : result json :=
  if String.eqb line "L1" then Ok (JObj [("response", JStr "Run systemctl ")])
  else if String.eqb line "L2" then Ok (JObj [("response", JStr "restart nginx"); ("done", JBool true)])
  else Raise (Exn "JSONDecodeError" "Expecting value: line 1 column 1 (char 0)").

Definition mock : services (list Z) :=
  {| encode := fun text => Ok [Z.of_nat (String.length text)];
     now_isoformat := fun n => "2026-11-04T10:00:0" +:+ pretty n;
     upsert_fault := fun _ _ _ => None;
     query_fault := fun _ _ _ => None;
     nearest := fun m _ => (map_to_list m).*1;
     static_query := fun _ _ => Ok example_results;
     post := mock_post;
     json_loads := mock_json_loads;
     print_fault := fun _ => None |}.

(** The service answers every generation request with status 500. *)
Definition mock_500 : services (list Z) :=
  with_post mock (fun before r =>
    if stream r then
      Ok {| status_code := 500; body_json := Raise (Exn "JSONDecodeError" "Expecting value");
            body_lines := []; broken := None |}
    else mock_post before r).

(** The Memory Store refuses every query. *)
Definition mock_no_recall : services (list Z) :=
  with_query_fault mock (fun _ _ _ =>
    Some (Exn "InvalidDimensionException"
            "Embedding dimension 384 does not match collection dimensionality 768")).

(** The Static KB returns chunks that were indexed without metadata. *)
Definition mock_bare_docs : services (list Z) :=
  with_static_query mock (fun _ _ =>
    Ok {| documents := Batches [[Some "doc1"; Some "doc2"]];
          metadatas := Batches [[None; None]] |}).

Definition w0 : world (list Z) := World ∅ [] [] 0.

(** Two users have written to the Memory Store. *)
Definition w_two_users : world (list Z) :=
  (add_memory mock "bob" "bob likes terraform" "user"
     (add_memory mock "alice" "alice runs nginx" "user" w0).2).2.

(** Four turns have been made. *)
Definition w_four_turns : world (list Z) :=
  World ∅ [("q1", "a1"); ("q2", "a2"); ("q3", "a3"); ("q4", "a4")] [] 0.

(** ** More mocked environments *)

Definition with_encode {V} (sv : services V) (enc : string -> result V) : services V :=
  {| encode := enc; now_isoformat := now_isoformat sv;
     upsert_fault := upsert_fault sv; query_fault := query_fault sv;
     nearest := nearest sv; static_query := static_query sv;
     post := post sv; json_loads := json_loads sv;
     print_fault := print_fault sv |}.

Definition with_json_loads {V} (sv : services V) (loads : string -> result json)
    : services V :=
  {| encode := encode sv; now_isoformat := now_isoformat sv;
     upsert_fault := upsert_fault sv; query_fault := query_fault sv;
     nearest := nearest sv; static_query := static_query sv;
     post := post sv; json_loads := loads; print_fault := print_fault sv |}.

(** The second line of the stream decodes to a list, not to an object. *)
Definition mock_list_line : services (list Z) :=
  with_json_loads mock (fun line =>
    if String.eqb line "noise" then Ok (JArr [JInt 1]) else mock_json_loads line).

(** The second line of the stream holds an integer of more digits than
    [json.loads] converts, and the connection breaks after the third line. *)
Definition mock_digits_line : services (list Z) :=
  with_post
    (with_json_loads mock (fun line =>
       if String.eqb line "noise"
       then Raise (Exn "ValueError"
                     "Exceeds the limit (4300 digits) for integer string conversion")
       else mock_json_loads line))
    (fun before r =>
       if stream r then
         Ok {| status_code := 200;
               body_json := Raise (Exn "JSONDecodeError" "Extra data");
               body_lines := ["L1"; "noise"; "L2"];
               broken := Some (Exn "ChunkedEncodingError" "Connection broken") |}
       else mock_post before r).

(** The embedder is down. *)
Definition mock_no_embedder : services (list Z) :=
  with_encode mock (fun _ => Raise (Exn "RuntimeError" "CUDA out of memory")).

(** Neither the Memory Store nor the Static KB answers. *)
Definition mock_no_retrieval : services (list Z) :=
  with_static_query mock_no_recall (fun _ _ =>
    Raise (Exn "ConnectionError" "vector store unreachable")).

(** The Static KB returns chunks and no [metadatas] key. *)
Definition mock_plain_docs : services (list Z) :=
  with_static_query mock (fun _ _ =>
    Ok {| documents := Batches [[Some "doc1"; Some "doc2"]]; metadatas := Absent |}).

(** A data folder with two documents, an image, a blank file, and one more
    document in a folder below. *)
Definition mock_files (path : string) : result string :=
  if String.eqb path "./data/nginx.md" then Ok ("  systemctl restart nginx" +:+ NL)
  else if String.eqb path "./data/notes.txt" then Ok "rotate the logs weekly"
  else if String.eqb path "./data/empty.md" then Ok ("   " +:+ NL)
  else if String.eqb path "./data/k8s/pods.txt" then Ok "kubectl get pods"
  else Raise (Exn "FileNotFoundError" "No such file or directory").

Definition mock_indexer : indexer (list Z) :=
  {| connect := None;
     load_model := fun _ => None;
     get_collection := fun _ => Some (Exn "NotFoundError" "Collection does not exist");
     create_collection := fun _ => None;
     walk := fun _ => [("./data", ["nginx.md"; "logo.png"; "notes.txt"; "empty.md"]);
                       ("./data/k8s", ["pods.txt"])];
     read_text := mock_files;
     encode_all := fun docs => Ok ((fun d => [Z.of_nat (String.length d)]) <$> docs);
     collection_add := fun _ _ _ => None |}.

Definition with_files {V} (ix : indexer V) (dirs : list (string * list string))
    (read : string -> result string) : indexer V :=
  {| connect := connect ix; load_model := load_model ix;
     get_collection := get_collection ix; create_collection := create_collection ix;
     walk := fun _ => dirs; read_text := read;
     encode_all := encode_all ix; collection_add := collection_add ix |}.

(** One of the documents is not UTF-8. *)
Definition mock_indexer_unreadable : indexer (list Z) :=
  with_files mock_indexer (walk mock_indexer DATA_DIR) (fun path =>
    if String.eqb path "./data/notes.txt"
    then Raise (Exn "UnicodeDecodeError" "'utf-8' codec can't decode byte 0xff")
    else mock_files path).

(** A data folder with a blank file and an image. *)
Definition mock_indexer_blank : indexer (list Z) :=
  with_files mock_indexer [("./data", ["logo.png"; "empty.md"])] mock_files.

(** * Properties *)

(** ** The model on concrete inputs *)

(** Digests as [hashlib.md5] gives them: the empty message, a short one, and
    messages of 56 and 64 bytes, where the padding takes one more block. *)
Example md5_empty : MD5.hexdigest [] = "d41d8cd98f00b204e9800998ecf8427e".
Proof. vm_compute. reflexivity. Qed.

Example md5_abc : MD5.hexdigest (bytes_of_str "abc") = "900150983cd24fb0d6963f7d28e17f72".
Proof. vm_compute. reflexivity. Qed.

Example md5_56 : MD5.hexdigest (replicate 56 97) = "3b0c8ac703f828b04c6c197006d17218".
Proof. vm_compute. reflexivity. Qed.

Example md5_64 : MD5.hexdigest (replicate 64 97) = "014842d480b571495a4a0363793f7367".
Proof. vm_compute. reflexivity. Qed.

(** [split], [strip] and [lower] as Python evaluates them. *)
Example split_fix_it : py_split "fix it" = ["fix"; "it"].
Proof. vm_compute. reflexivity. Qed.

Example split_blank : py_split "   " = [].
Proof. vm_compute. reflexivity. Qed.

Example strip_ex : py_strip ("  restart nginx " +:+ NL) = "restart nginx".
Proof. vm_compute. reflexivity. Qed.

Example lower_ex : py_lower "EXIT" = "exit".
Proof. vm_compute. reflexivity. Qed.

(** A no-break space (U+00A0, bytes C2 A0) separates tokens. *)
Example split_nbsp :
  length (py_split (str_of_bytes [97; 0xC2; 0xA0; 98; 32; 99])) = 3%nat.
Proof. vm_compute. reflexivity. Qed.

(** The functions of [agent.py] in the mocked environment. *)
Example mem_id_hello : mem_id "onkar" "user" "hello" = "onkar_user_5d41402a".
Proof. vm_compute. reflexivity. Qed.

Example recall_alice :
  recall_memory mock "alice" "what do I run?" 3 w_two_users
  = (Ok "alice runs nginx", w_two_users).
Proof. vm_compute. reflexivity. Qed.

Example recall_nobody :
  recall_memory mock "carol" "what do I run?" 3 w_two_users = (Ok "", w_two_users).
Proof. vm_compute. reflexivity. Qed.

Example search_docs_bare :
  search_docs mock_bare_docs "x" w0
  = (Ok "[ERROR] search_docs failed: 'NoneType' object has no attribute 'get'", w0).
Proof. vm_compute. reflexivity. Qed.

Example query_ollama_stream :
  (query_ollama mock "How do I restart nginx?" "" w0).1 = Ok "Run systemctl restart nginx".
Proof. vm_compute. reflexivity. Qed.

Example build_context_four_turns :
  (build_context mock "onkar" "q5" w_four_turns).1
  = Ok ("Short-term:" +:+ NL +:+
        "User: q2" +:+ NL +:+ "Agent: a2" +:+ NL +:+
        "User: q3" +:+ NL +:+ "Agent: a3" +:+ NL +:+
        "User: q4" +:+ NL +:+ "Agent: a4" +:+ NL +:+ NL +:+
        "Long-term memory:" +:+ NL +:+ NL +:+ NL +:+
        "Docs:" +:+ NL +:+
        "[Source: a.md]" +:+ NL +:+ "doc1" +:+ NL +:+ NL +:+
        "[Source: unknown]" +:+ NL +:+ "doc2").
Proof. vm_compute. reflexivity. Qed.

Example turn_history :
  conversation_history (turn mock "How do I restart nginx?" w0).2
  = [("How do I restart nginx?", "Run systemctl restart nginx")].
Proof. vm_compute. reflexivity. Qed.

Example turn_wire :
  ∃ context,
    (build_context mock "onkar" "How can I restart the nginx service?" w0).1 = Ok context
    ∧ prompt <$> wire (turn mock "How do I restart nginx?" w0).2
      = ["Rephrase this for clarity: How do I restart nginx?";
         answer_prompt "How can I restart the nginx service?" context].
Proof. eexists. split; vm_compute; reflexivity. Qed.

(** Three lines: a question, a blank line, and the command to leave. *)
Example main_loop_run :
  let out := main_loop mock ["  How do I restart nginx?  "; "   "; "Exit"; "never read"] w0 in
  out.1 = Ok ()
  ∧ conversation_history out.2
    = [("How do I restart nginx?", "Run systemctl restart nginx")]
  ∧ size (memory out.2) = 2%nat.
Proof. vm_compute. repeat split. Qed.

(** [endswith] and [os.path.join] as Python evaluates them. *)
Example endswith_ex :
  py_endswith "notes.txt" ".txt" = true ∧ py_endswith "notes.TXT" ".txt" = false
  ∧ py_endswith "md" ".md" = false ∧ py_endswith ".md" ".md" = true.
Proof. vm_compute. repeat split. Qed.

Example path_join_ex :
  path_join "./data" "a.md" = "./data/a.md" ∧ path_join "./data/" "a.md" = "./data/a.md"
  ∧ path_join "" "a.md" = "a.md" ∧ path_join "./data" "/etc/motd" = "/etc/motd".
Proof. vm_compute. repeat split. Qed.

(** The indexer on the mocked data folder. *)
Example build_index_run :
  build_index mock_indexer
  = Ok (Added true
          ["systemctl restart nginx"; "rotate the logs weekly"; "kubectl get pods"]
          [[23]; [22]; [16]]
          ["./data/nginx.md"; "./data/notes.txt"; "./data/k8s/pods.txt"]).
Proof. vm_compute. reflexivity. Qed.

Example build_index_blank_run : build_index mock_indexer_blank = Ok (Exit0 true).
Proof. vm_compute. reflexivity. Qed.

Example asked_ex :
  asked ["  How do I restart nginx?  "; "   "; "why?"; "Exit"; "never read"]
  = ["How do I restart nginx?"; "why?"].
Proof. vm_compute. reflexivity. Qed.

(** The calls of a run of the indexer on the mocked data folder. *)
Example traced_index_run :
  (traced_index mock_indexer []).2
  = [Connect; LoadModel "all-MiniLM-L6-v2"; GetCollection "devops_mini";
     CreateCollection "devops_mini";
     Open "./data/nginx.md"; Open "./data/notes.txt"; Open "./data/empty.md";
     Open "./data/k8s/pods.txt";
     Encode ["systemctl restart nginx"; "rotate the logs weekly"; "kubectl get pods"];
     Add ["systemctl restart nginx"; "rotate the logs weekly"; "kubectl get pods"]
       [[23]; [22]; [16]]
       ["./data/nginx.md"; "./data/notes.txt"; "./data/k8s/pods.txt"]].
Proof. vm_compute. reflexivity. Qed.

(** A line of the stream that is a JSON list ends the answer. *)
Example query_ollama_list_line :
  (query_ollama mock_list_line "How do I restart nginx?" "" w0).1
  = Ok "[ERROR] Ollama request failed: 'list' object has no attribute 'get'".
Proof. vm_compute. reflexivity. Qed.

(** ** Strings and the digest *)

Lemma length_of_list_ascii (l : list ascii) :
  String.length (string_of_list_ascii l) = length l.
Proof. induction l as [|a l IH]; simpl; [reflexivity | now rewrite IH]. Qed.

Lemma length_slice_to (n : nat) (s : string) :
  (n <= String.length s)%nat -> String.length (slice_to n s) = n.
Proof.
  unfold slice_to. revert s.
  induction n as [|n IH]; intros s Hn.
  - destruct s; reflexivity.
  - destruct s as [|a s]; simpl in *; [lia |].
    rewrite IH by lia. reflexivity.
Qed.

Lemma length_le_bytes (n : nat) (x : Z) : length (MD5.le_bytes n x) = n.
Proof. unfold MD5.le_bytes. now rewrite length_fmap, length_seq. Qed.

Lemma length_hex (bs : list Z) :
  length (bs ≫= MD5.hex_byte) = (2 * length bs)%nat.
Proof.
  induction bs as [|b bs IH]; [reflexivity |].
  change (length (MD5.hex_byte b ++ (bs ≫= MD5.hex_byte)) = (2 * S (length bs))%nat).
  rewrite length_app, IH. simpl. lia.
Qed.

Lemma length_digest (msg : list Z) : length (MD5.digest msg) = 16%nat.
Proof.
  unfold MD5.digest.
  destruct (MD5.blocks _ _ _) as [a b c d].
  rewrite !length_app, !length_le_bytes. reflexivity.
Qed.

(** The hexadecimal digest always has 32 characters. *)
Lemma length_hexdigest (msg : list Z) :
  String.length (MD5.hexdigest msg) = 32%nat.
Proof.
  unfold MD5.hexdigest.
  now rewrite length_of_list_ascii, length_hex, length_digest.
Qed.

Lemma length_hash_prefix (text : string) :
  String.length (slice_to 8 (hash_text text)) = 8%nat.
Proof.
  apply length_slice_to. unfold hash_text. rewrite length_hexdigest. lia.
Qed.

Lemma hex_digit_ok (n : Z) : 0 <= n < 16 -> is_hex_digit (MD5.hex_digit n) = true.
Proof.
  intros H.
  assert (E : n = Z.of_nat (Z.to_nat n)) by lia.
  rewrite E. clear E.
  assert (Hk : (Z.to_nat n < 16)%nat) by lia.
  revert Hk. generalize (Z.to_nat n) as k. clear H.
  intros k Hk.
  do 16 (destruct k as [|k]; [reflexivity|]). lia.
Qed.

Lemma le_bytes_range (n : nat) (x : Z) :
  Forall (fun b => 0 <= b < 256) (MD5.le_bytes n x).
Proof.
  unfold MD5.le_bytes. apply Forall_fmap, Forall_forall. intros i _. simpl.
  change 255 with (Z.ones 8). rewrite Z.land_ones by lia.
  apply Z.mod_pos_bound. reflexivity.
Qed.

Lemma digest_range (msg : list Z) : Forall (fun b => 0 <= b < 256) (MD5.digest msg).
Proof.
  unfold MD5.digest. destruct (MD5.blocks _ _ _) as [a b c d].
  repeat apply Forall_app_2; apply le_bytes_range.
Qed.

Lemma hex_byte_ok (b : Z) :
  0 <= b < 256 -> Forall (fun a => is_hex_digit a = true) (MD5.hex_byte b).
Proof.
  intros H. unfold MD5.hex_byte.
  repeat constructor; apply hex_digit_ok.
  - rewrite Z.shiftr_div_pow2 by lia. change (2 ^ 4) with 16.
    split; [apply Z.div_pos; lia | apply Z.div_lt_upper_bound; lia].
  - change 15 with (Z.ones 4). rewrite Z.land_ones by lia.
    apply Z.mod_pos_bound. reflexivity.
Qed.

(** The hexadecimal digest is made of hexadecimal digits. *)
Lemma hexdigest_hex (msg : list Z) :
  Forall (fun a => is_hex_digit a = true) (list_ascii_of_string (MD5.hexdigest msg)).
Proof.
  unfold MD5.hexdigest. rewrite list_ascii_of_string_of_list_ascii.
  apply Forall_bind. eapply Forall_impl; [apply digest_range|].
  intros b Hb. now apply hex_byte_ok.
Qed.

Lemma slice_to_take (n : nat) (s : string) :
  list_ascii_of_string (slice_to n s) = take n (list_ascii_of_string s).
Proof.
  unfold slice_to. revert s.
  induction n as [|n IH]; intros [|a s]; simpl; try reflexivity.
  now rewrite IH.
Qed.

Lemma hash_prefix_hex (text : string) :
  Forall (fun a => is_hex_digit a = true)
    (list_ascii_of_string (slice_to 8 (hash_text text))).
Proof. rewrite slice_to_take. apply Forall_take, hexdigest_hex. Qed.

(** ** The Memory Manager *)

Section MemoryManager.

Context {vector : Type} (sv : services vector).

(** [add_memory], statement by statement. *)
Lemma add_memory_run (user_id text role : string) (w : world vector) :
  add_memory sv user_id text role w =
  match encode sv text with
  | Raise e => (Raise e, w)
  | Ok v =>
    let w' := World (memory w) (conversation_history w) (wire w) (S (clock w)) in
    let r := written sv user_id text role v w in
    match upsert_fault sv (memory w) (mem_id user_id role text) r with
    | Some e => (Raise e, w')
    | None =>
      (Ok (), World (<[mem_id user_id role text := r]> (memory w))
                (conversation_history w) (wire w) (S (clock w)))
    end
  end.
Proof.
  unfold add_memory, embedder_encode, datetime_now_isoformat, memory_upsert,
    lift, mbind, M_bind, written, memory_metadata.
  destruct (encode sv text) as [v|e]; simpl; [|reflexivity].
  destruct (upsert_fault _ _ _ _); reflexivity.
Qed.

(** Whatever happens, [add_memory] adds at most the id it derives, and
    leaves the history and the requests as they are. *)
Lemma add_memory_frame (user_id text role : string) (w : world vector) :
  let w' := (add_memory sv user_id text role w).2 in
  dom (memory w') ⊆ {[mem_id user_id role text]} ∪ dom (memory w)
  ∧ conversation_history w' = conversation_history w
  ∧ wire w' = wire w.
Proof.
  rewrite add_memory_run.
  destruct (encode sv text) as [v|e]; simpl; [|set_solver].
  destruct (upsert_fault _ _ _ _); simpl; [set_solver|].
  rewrite dom_insert_L. set_solver.
Qed.

(** C1. [add_memory] derives the id of the record as
    [user_id + "_" + role + "_" +] the first 8 hexadecimal digits of the
    MD5 digest of the text.  The id depends on this triple only, so two
    calls with the same triple write under the same id: in every case at
    most that one id is new in the Memory Store, and when the embedder and
    the upserts succeed, both calls succeed, the second overwrites the
    record of the first, and the store holds one record for the triple
    (its size is the same after the second call as after the first). *)
Theorem add_memory_identity (user_id role text : string) (w : world vector) :
  let id := mem_id user_id role text in
  let w1 := (add_memory sv user_id text role w).2 in
  let w2 := (add_memory sv user_id text role w1).2 in
  id = user_id +:+ "_" +:+ role +:+ "_"
         +:+ slice_to 8 (MD5.hexdigest (bytes_of_str text))
  ∧ String.length (slice_to 8 (MD5.hexdigest (bytes_of_str text))) = 8%nat
  ∧ Forall (fun a => is_hex_digit a = true)
      (list_ascii_of_string (slice_to 8 (MD5.hexdigest (bytes_of_str text))))
  ∧ dom (memory w2) ⊆ {[id]} ∪ dom (memory w)
  ∧ ∀ v, encode sv text = Ok v ->
      (∀ m r, upsert_fault sv m id r = None) ->
      add_memory sv user_id text role w = (Ok (), w1)
      ∧ add_memory sv user_id text role w1 = (Ok (), w2)
      ∧ memory w1 = <[id := written sv user_id text role v w]> (memory w)
      ∧ memory w2 = <[id := written sv user_id text role v w1]> (memory w)
      ∧ dom (memory w2) = dom (memory w1)
      ∧ size (memory w2) = size (memory w1)
      ∧ (memory w !! id = None -> size (memory w2) = S (size (memory w))).
Proof.
  intros id w1 w2. split; [reflexivity|]. split; [apply length_hash_prefix|].
  split; [apply hash_prefix_hex|]. split.
  - pose proof (add_memory_frame user_id text role w) as (H1 & _).
    pose proof (add_memory_frame user_id text role w1) as (H2 & _).
    fold w1 in H1. fold w2 in H2. fold id in H1, H2.
    intros x Hx. apply H2, elem_of_union in Hx as [Hx|Hx].
    + apply elem_of_union. now left.
    + now apply H1.
  - intros v Hv Hup.
    assert (E1 : add_memory sv user_id text role w =
                 (Ok (), World (<[id := written sv user_id text role v w]> (memory w))
                           (conversation_history w) (wire w) (S (clock w)))).
    { rewrite add_memory_run, Hv. simpl. fold id. now rewrite Hup. }
    assert (M1 : memory w1 = <[id := written sv user_id text role v w]> (memory w)).
    { unfold w1. now rewrite E1. }
    assert (E2 : add_memory sv user_id text role w1 =
                 (Ok (), World (<[id := written sv user_id text role v w1]> (memory w1))
                           (conversation_history w1) (wire w1) (S (clock w1)))).
    { rewrite add_memory_run, Hv. simpl. fold id. now rewrite Hup. }
    assert (M2 : memory w2 = <[id := written sv user_id text role v w1]> (memory w)).
    { unfold w2. rewrite E2. simpl. rewrite M1. apply insert_insert_eq. }
    split; [unfold w1; now rewrite E1|].
    split; [unfold w2; now rewrite E2|].
    split; [exact M1|]. split; [exact M2|].
    split; [rewrite M1, M2, !dom_insert_L; reflexivity|].
    split.
    + rewrite M2, M1.
      destruct (memory w !! id) eqn:Hid.
      * now rewrite !map_size_insert_Some by eauto.
      * now rewrite !map_size_insert_None by assumption.
    + intros Hid. rewrite M2. now apply map_size_insert_None.
Qed.

(** C10. [add_memory] checks neither the text nor the role: for every text,
    the empty one included, and every role, when the embedder returns an
    embedding and the upsert does not fail, the call ends without an
    exception and the store holds, under the derived id, the record with
    this text, this embedding and this role. *)
Theorem add_memory_no_validation (user_id text role : string) (v : vector)
    (w : world vector) :
  encode sv text = Ok v ->
  upsert_fault sv (memory w) (mem_id user_id role text)
    (written sv user_id text role v w) = None ->
  ∃ w', add_memory sv user_id text role w = (Ok (), w')
    ∧ memory w' !! mem_id user_id role text = Some (written sv user_id text role v w)
    ∧ document (written sv user_id text role v w) = text
    ∧ embedding (written sv user_id text role v w) = v
    ∧ metadata (written sv user_id text role v w) !! "role" = Some (MStr role)
    ∧ metadata (written sv user_id text role v w) !! "user_id" = Some (MStr user_id).
Proof.
  intros Hv Hup. eexists. split.
  - rewrite add_memory_run, Hv. simpl. rewrite Hup. reflexivity.
  - simpl. rewrite lookup_insert_eq. repeat split; reflexivity.
Qed.

(** *** Recall *)

Lemma str_items_documents (i : nat) (hits : list (record vector)) :
  str_items i ((fun r => Some (document r)) <$> hits) = Ok (document <$> hits).
Proof.
  revert i. induction hits as [|r hits IH]; intros i; simpl; [reflexivity|].
  change (fmap (M:=list) (λ r0 : record vector, Some (document r0)) hits)
    with ((fun r => Some (document r)) <$> hits).
  rewrite IH. reflexivity.
Qed.

Lemma recall_memory_run (user_id query : string) (top_k : Z) (w : world vector) :
  recall_memory sv user_id query top_k w
  = (Ok (join NL (document <$> recalled sv user_id query top_k w)), w).
Proof.
  unfold recall_memory, recalled, try_except, memory_query, lift, mbind, M_bind.
  destruct (query_fault _ _ _ _); [reflexivity|].
  destruct (top_k <=? 0); [reflexivity|].
  simpl. unfold py_join. rewrite str_items_documents. reflexivity.
Qed.

Lemma matches_user (user_id : string) (r : record vector) :
  matches_where [("user_id", MStr user_id)] r = true ->
  metadata r !! "user_id" = Some (MStr user_id).
Proof.
  unfold matches_where. simpl. rewrite andb_true_r.
  intros H. now apply bool_decide_eq_true in H.
Qed.

Lemma recalled_spec (user_id query : string) (top_k : Z) (w : world vector)
    (r : record vector) :
  r ∈ recalled sv user_id query top_k w ->
  (∃ id, memory w !! id = Some r)
  ∧ metadata r !! "user_id" = Some (MStr user_id).
Proof.
  unfold recalled, memory_hits.
  destruct (query_fault _ _ _ _); [intros H; inversion H|].
  destruct (top_k <=? 0); [intros H; inversion H|].
  intros H. apply subseteq_take in H.
  apply list_elem_of_In, filter_In in H. destruct H as [H Hm].
  apply list_elem_of_In, list_elem_of_omap in H.
  destruct H as (id & _ & Hid).
  split; [eauto | now apply matches_user].
Qed.

(** C2. For users A and B that differ, [recall_memory] for A returns the
    texts of records of the Memory Store whose metadata has
    [user_id = A], joined by newlines, and nothing else: no record whose
    [user_id] is B is among them, in particular no record that
    [add_memory] writes for B. *)
Theorem recall_memory_isolation (A B query : string) (top_k : Z)
    (w : world vector) :
  A ≠ B ->
  let hits := recalled sv A query top_k w in
  recall_memory sv A query top_k w = (Ok (join NL (document <$> hits)), w)
  ∧ (∀ r, r ∈ hits ->
       (∃ id, memory w !! id = Some r)
       ∧ metadata r !! "user_id" = Some (MStr A))
  ∧ (∀ r, metadata r !! "user_id" = Some (MStr B) -> r ∉ hits)
  ∧ (∀ text role v w0, written sv B text role v w0 ∉ hits).
Proof.
  intros Hne hits.
  assert (HB : ∀ r, metadata r !! "user_id" = Some (MStr B) -> r ∉ hits).
  { intros r Hr Hin. apply recalled_spec in Hin as [_ Hin]. congruence. }
  split; [apply recall_memory_run|].
  split; [intros r; apply recalled_spec|].
  split; [exact HB|].
  intros text role v w0. apply HB. reflexivity.
Qed.

(** C5. When the query of the Memory Store raises an exception,
    [recall_memory] returns the empty string; in no case does
    [recall_memory] raise. *)
Theorem recall_memory_degrades (user_id query : string) (top_k : Z)
    (w : world vector) :
  (∀ e w', memory_query sv query top_k [("user_id", MStr user_id)] w = (Raise e, w') ->
           recall_memory sv user_id query top_k w = (Ok "", w'))
  ∧ (∀ e, query_fault sv (memory w) query top_k = Some e ->
          recall_memory sv user_id query top_k w = (Ok "", w))
  ∧ ∃ s, recall_memory sv user_id query top_k w = (Ok s, w).
Proof.
  split; [|split].
  - intros e w' H. unfold recall_memory, try_except, mbind, M_bind.
    rewrite H. reflexivity.
  - intros e H. rewrite recall_memory_run. unfold recalled. rewrite H. reflexivity.
  - eexists. apply recall_memory_run.
Qed.

End MemoryManager.

(** ** The Document Retriever *)

Lemma source_at_ok (metas : list (option Metadata)) (i : nat) (v : scalar) :
  source_at metas i = Ok v -> str_scalar v = source_of metas i.
Proof.
  unfold source_at, source_of, getitem_list, meta_get.
  destruct metas as [|m0 metas'] eqn:E.
  - intros [= <-]. reflexivity.
  - rewrite <- E. clear E. destruct (metas !! i) as [[m|]|]; simpl; try discriminate.
    intros [= <-]. destruct (m !! "source"); reflexivity.
Qed.

Lemma context_blocks_ok (metas : list (option Metadata)) (docs : list (option string)) :
  ∀ (i : nat) (blocks : list string),
    context_blocks metas i docs = Ok blocks ->
    blocks = imap (fun j doc => block_of metas (i + j) doc) docs.
Proof.
  induction docs as [|doc rest IH]; intros i blocks; simpl.
  - intros [= <-]. reflexivity.
  - destruct (source_at metas i) as [v|e] eqn:Hs; simpl; [|discriminate].
    destruct (context_blocks metas (S i) rest) as [bs|e] eqn:Hr; simpl; [|discriminate].
    intros [= <-]. apply source_at_ok in Hs. apply IH in Hr.
    unfold block_of at 1. rewrite Nat.add_0_r, <- Hs. f_equal.
    rewrite Hr. apply imap_ext. intros j d _. simpl. f_equal. lia.
Qed.

(** When the loop ends without an exception, either the result has no
    metadata at all or every chunk has a metadata dictionary. *)
Lemma context_blocks_metas (metas : list (option Metadata)) (docs : list (option string)) :
  ∀ (i : nat) (blocks : list string),
    context_blocks metas i docs = Ok blocks ->
    metas = [] ∨ ∀ j, (j < length docs)%nat -> ∃ m, metas !! (i + j)%nat = Some (Some m).
Proof.
  induction docs as [|doc rest IH]; intros i blocks H.
  - right. intros j Hj. simpl in Hj. lia.
  - simpl in H.
    destruct (source_at metas i) as [v|e] eqn:Hs; simpl in H; [|discriminate].
    destruct (context_blocks metas (S i) rest) as [bs|e] eqn:Hr; simpl in H; [|discriminate].
    destruct metas as [|m0 ms] eqn:Em; [now left|]. right.
    rewrite <- Em in *. intros j Hj. destruct j as [|j].
    + rewrite Nat.add_0_r. unfold source_at, getitem_list in Hs. rewrite Em in Hs.
      rewrite <- Em in Hs.
      destruct (metas !! i) as [[m|]|]; simpl in Hs; try discriminate. eauto.
    + apply IH in Hr as [Hr|Hr]; [congruence|].
      replace (i + S j)%nat with (S i + j)%nat by lia. apply Hr. simpl in Hj. lia.
Qed.

Section DocumentRetriever.

Context {vector : Type} (sv : services vector).

(** [search_docs] is a function of the answer of the Static KB and leaves
    the world as it is. *)
Lemma search_docs_run (query_text : string) (w : world vector) :
  search_docs sv query_text w =
  (Ok match results ← static_query sv query_text MAX_CONTEXT_DOCS;
            format_results results with
      | Ok s => s
      | Raise e => "[ERROR] search_docs failed: " +:+ exn_str e
      end, w).
Proof.
  unfold search_docs, try_except, lift, mbind at 1, M_bind.
  destruct (static_query _ _ _) as [results|e]; simpl; [|reflexivity].
  destruct (format_results results); reflexivity.
Qed.

(** C4. On the success path, [search_docs] returns the chunks in the
    order of the store, each one after the line [[Source: <source>]]
    where the source is the [source] field of the metadata of the chunk and
    [unknown] for a chunk whose metadata has no such field, the blocks
    joined by a blank line.  For the matches [("doc1", {"source": "a.md"})]
    and [("doc2", {})] the result is
    [[Source: a.md]\ndoc1\n\n[Source: unknown]\ndoc2]. *)
Theorem search_docs_format (query_text : string) (w : world vector) :
  (∀ results s,
     static_query sv query_text MAX_CONTEXT_DOCS = Ok results ->
     format_results results = Ok s ->
     search_docs sv query_text w = (Ok s, w)
     ∧ ∃ docs others metas,
         documents results = Batches (docs :: others)
         ∧ first (get_key (metadatas results) [[]]) = Ok metas
         ∧ s = join (NL +:+ NL)
                 (imap (fun i doc =>
                          "[Source: " +:+ source_of metas i +:+ "]" +:+ NL +:+ str_doc doc)
                       docs)
         ∧ (metas = [] ∨
            ∀ i, (i < length docs)%nat -> ∃ m, metas !! i = Some (Some m))
         ∧ (∀ i m v, metas !! i = Some (Some m) -> m !! "source" = Some v ->
                     source_of metas i = str_scalar v)
         ∧ (∀ i m, metas !! i = Some (Some m) -> m !! "source" = None ->
                   source_of metas i = "unknown")
         ∧ (metas = [] -> ∀ i, source_of metas i = "unknown"))
  ∧ (static_query sv query_text MAX_CONTEXT_DOCS = Ok example_results ->
     search_docs sv query_text w =
     (Ok ("[Source: a.md]" +:+ NL +:+ "doc1" +:+ NL +:+ NL +:+
          "[Source: unknown]" +:+ NL +:+ "doc2"), w)).
Proof.
  split.
  - intros results s Hq Hf. split.
    + rewrite search_docs_run, Hq. simpl. now rewrite Hf.
    + unfold format_results in Hf.
      destruct (documents results) as [| |[|docs others]] eqn:Hd;
        simpl in Hf; try discriminate.
      destruct (first (get_key (metadatas results) [[]])) as [metas|e] eqn:Hm;
        simpl in Hf; [|discriminate].
      destruct (context_blocks metas 0 docs) as [blocks|e] eqn:Hb;
        simpl in Hf; [|discriminate].
      injection Hf as <-.
      pose proof (context_blocks_metas _ _ _ _ Hb) as Hw.
      apply context_blocks_ok in Hb.
      exists docs, others, metas.
      split; [reflexivity|]. split; [reflexivity|].
      split; [now rewrite Hb|]. split; [exact Hw|].
      unfold source_of. split; [|split].
      * intros i m v -> ->. reflexivity.
      * intros i m -> ->. reflexivity.
      * intros -> i. reflexivity.
  - intros Hq. rewrite search_docs_run, Hq. reflexivity.
Qed.

(** C7. When the query of the Static KB raises, or the formatting of its
    result does, [search_docs] returns the marker
    [[ERROR] search_docs failed: ] followed by the message of the
    exception; in no case does [search_docs] raise. *)
Theorem search_docs_contains_failures (query_text : string) (w : world vector) :
  (∀ e, static_query sv query_text MAX_CONTEXT_DOCS = Raise e ->
        search_docs sv query_text w
        = (Ok ("[ERROR] search_docs failed: " +:+ exn_str e), w))
  ∧ (∀ results e,
       static_query sv query_text MAX_CONTEXT_DOCS = Ok results ->
       format_results results = Raise e ->
       search_docs sv query_text w
       = (Ok ("[ERROR] search_docs failed: " +:+ exn_str e), w))
  ∧ ∃ s, search_docs sv query_text w = (Ok s, w).
Proof.
  split; [|split].
  - intros e H. rewrite search_docs_run, H. reflexivity.
  - intros results e Hq Hf. rewrite search_docs_run, Hq. simpl. now rewrite Hf.
  - eexists. apply search_docs_run.
Qed.

End DocumentRetriever.

(** ** The Context Assembler *)

Lemma slice_from_last {A} (n : nat) (l : list A) :
  (0 < n)%nat -> slice_from (- Z.of_nat n) l = drop (length l - n) l.
Proof.
  intros Hn. unfold slice_from.
  destruct (Z.ltb_spec (- Z.of_nat n) 0) as [_|H]; [|lia].
  f_equal. lia.
Qed.

(** [l[-n:]] is the end of the list, of length [n], or the whole list when
    it is shorter. *)
Lemma slice_from_last_spec {A} (n : nat) (l : list A) :
  (0 < n)%nat ->
  (∃ older, l = older ++ slice_from (- Z.of_nat n) l)
  ∧ length (slice_from (- Z.of_nat n) l) = Nat.min n (length l).
Proof.
  intros Hn. rewrite slice_from_last by assumption. split.
  - exists (take (length l - n) l). now rewrite take_drop.
  - rewrite length_drop. lia.
Qed.

Section ContextAssembler.

Context {vector : Type} (sv : services vector).

(** [build_context] never raises and leaves the world as it is. *)
Lemma build_context_frame (user_id user_query : string) (w : world vector) :
  ∃ context, build_context sv user_id user_query w = (Ok context, w).
Proof.
  unfold build_context, history, mbind, M_bind. simpl.
  rewrite recall_memory_run. simpl. rewrite search_docs_run. eauto.
Qed.

(** C3. [build_context] returns one string with the three sections
    [Short-term], [Long-term memory] and [Docs] in this order; the first
    holds the last [MEMORY_SIZE] turns of the history, all of them when
    there are fewer, in the order of the history, each as
    [User: <query>\nAgent: <answer>]; the other two hold what
    [recall_memory] and [search_docs] return. *)
Theorem build_context_sections (user_id user_query : string) (w : world vector) :
  let recent := slice_from (- MEMORY_SIZE) (conversation_history w) in
  ∃ long_term docs,
    recall_memory sv user_id user_query 3 w = (Ok long_term, w)
    ∧ search_docs sv user_query w = (Ok docs, w)
    ∧ build_context sv user_id user_query w =
      (Ok ("Short-term:" +:+ NL +:+
           join NL ((fun t => "User: " +:+ t.1 +:+ NL +:+ "Agent: " +:+ t.2) <$> recent)
           +:+ NL +:+ NL +:+
           "Long-term memory:" +:+ NL +:+ long_term +:+ NL +:+ NL +:+
           "Docs:" +:+ NL +:+ docs), w)
    ∧ (∃ older, conversation_history w = older ++ recent)
    ∧ length recent = Nat.min 3 (length (conversation_history w)).
Proof.
  intros recent.
  pose proof (recall_memory_run sv user_id user_query 3 w) as Hr.
  pose proof (search_docs_run sv user_query w) as Hd.
  eexists _, _. split; [exact Hr|]. split; [exact Hd|].
  split.
  - unfold build_context, history, mbind, M_bind. simpl.
    rewrite Hr. simpl. rewrite Hd. reflexivity.
  - apply (slice_from_last_spec 3 (conversation_history w)). lia.
Qed.

End ContextAssembler.

(** ** The Query Rephraser *)

Section Rephraser.

Context {vector : Type} (sv : services vector).

(** [rephrase_query] never raises, and changes nothing but the list of
    requests, to which it adds at most its own. *)
Lemma rephrase_query_frame (prompt_ : string) (w : world vector) :
  ∃ s sent,
    rephrase_query sv prompt_ w =
    (Ok s, World (memory w) (conversation_history w) (wire w ++ sent) (clock w))
    ∧ (sent = [] ∨ sent = [rephrase_request prompt_]).
Proof.
  unfold rephrase_query.
  destruct (length (py_split prompt_) <? 3)%nat.
  - exists prompt_, []. rewrite app_nil_r. destruct w. split; [reflexivity | now left].
  - unfold try_except, requests_post, lift, mbind at 1 2 3, M_bind, mret, M_ret.
    destruct (post sv (wire w) (rephrase_request prompt_)) as [res|e]; simpl.
    + destruct (ok res); simpl.
      * destruct (body_json res ≫= _) as [s|e]; simpl;
          eexists _, _; (split; [reflexivity | now right]).
      * eexists _, _. split; [reflexivity | now right].
    + eexists _, _. split; [reflexivity | now right].
Qed.

(** C8. For a prompt of fewer than 3 whitespace-delimited tokens,
    [rephrase_query] returns the prompt as it is and makes no request to the
    generation service: the world, the list of requests included, is the
    same after the call. *)
Theorem rephrase_query_short (prompt_ : string) (w : world vector) :
  (length (py_split prompt_) < 3)%nat ->
  rephrase_query sv prompt_ w = (Ok prompt_, w)
  ∧ wire (rephrase_query sv prompt_ w).2 = wire w.
Proof.
  intros H. apply Nat.ltb_lt in H.
  unfold rephrase_query. rewrite H. split; reflexivity.
Qed.

End Rephraser.

(** ** The Generation Client and the conversation loop *)

Lemma user_agent_ids (q a : string) :
  mem_id USER_ID "user" q ≠ mem_id USER_ID "agent" a.
Proof. unfold mem_id, USER_ID. simpl. discriminate. Qed.

Section ConversationLoop.

Context {vector : Type} (sv : services vector).

(** [query_ollama] never raises; it makes one request. *)
Lemma query_ollama_frame (prompt_ context : string) (w : world vector) :
  ∃ answer,
    query_ollama sv prompt_ context w
    = (Ok answer, sent (answer_request prompt_ context) w).
Proof.
  unfold query_ollama, try_except, requests_post, lift, mbind, M_bind, mret, M_ret, sent.
  destruct (post sv (wire w) _) as [res|e]; simpl; [|eauto].
  destruct (negb (status_code res =? 200)); simpl; [eauto|].
  destruct (read_lines sv _ _ _); simpl; eauto.
Qed.

Lemma query_ollama_failed (prompt_ context err : string) (w : world vector) :
  generation_failed (post sv (wire w) (answer_request prompt_ context)) err ->
  query_ollama sv prompt_ context w
  = (Ok err, sent (answer_request prompt_ context) w).
Proof.
  unfold query_ollama, try_except, requests_post, lift, mbind, M_bind, mret, M_ret, sent.
  inversion 1 as [e He|res Hs He]; simpl; [reflexivity|].
  destruct (Z.eqb_spec (status_code res) 200); [contradiction|reflexivity].
Qed.

Lemma turn_run (query refined context answer : string) (w w1 w2 w3 : world vector) :
  rephrase_query sv query w = (Ok refined, w1) ->
  build_context sv USER_ID refined w1 = (Ok context, w2) ->
  query_ollama sv refined context w2 = (Ok answer, w3) ->
  turn sv query w = record_turn sv query answer w3.
Proof.
  intros H1 H2 H3. unfold turn, record_turn, mbind at 1 2 3, M_bind.
  rewrite H1, H2, H3. reflexivity.
Qed.

(** A line that is neither empty nor a command to leave is a turn, after
    which the loop goes on. *)
Lemma main_loop_turn (line : string) (rest : list string) (w : world vector) :
  py_lower (py_strip line) ∉ ["exit"; "quit"] ->
  py_strip line ≠ "" ->
  main_loop sv (line :: rest) w = (turn sv (py_strip line);; main_loop sv rest) w.
Proof.
  intros Hc He. simpl.
  rewrite bool_decide_eq_false_2 by assumption.
  destruct (String.eqb_spec (py_strip line) ""); [contradiction|reflexivity].
Qed.

(** The history after [record_turn], whether or not the writes to the
    Memory Store succeed. *)
Lemma record_turn_history (query answer : string) (w : world vector) :
  conversation_history (record_turn sv query answer w).2
  = conversation_history w ++ [(query, answer)]
  ∧ wire (record_turn sv query answer w).2 = wire w.
Proof.
  unfold record_turn, history_append, mbind, M_bind.
  set (w' := World _ _ _ _).
  pose proof (add_memory_frame sv USER_ID query "user" w') as (_ & Hh1 & Hw1).
  destruct (add_memory sv USER_ID query "user" w') as [[[]|e] w''] eqn:E1; simpl in *.
  - pose proof (add_memory_frame sv USER_ID answer "agent" w'') as (_ & Hh2 & Hw2).
    rewrite Hh2, Hh1, Hw2, Hw1. split; reflexivity.
  - rewrite Hh1, Hw1. split; reflexivity.
Qed.

(** The Memory Store after [record_turn] when the embedder and the upserts
    succeed: both texts are stored, under ids of their own. *)
Lemma record_turn_memory (query answer : string) (w : world vector) (vq va : vector) :
  encode sv query = Ok vq ->
  encode sv answer = Ok va ->
  (∀ m id r, upsert_fault sv m id r = None) ->
  ∃ rq ra,
    (record_turn sv query answer w).1 = Ok ()
    ∧ memory (record_turn sv query answer w).2
      = <[mem_id USER_ID "agent" answer := ra]>
          (<[mem_id USER_ID "user" query := rq]> (memory w))
    ∧ document rq = query ∧ document ra = answer
    ∧ metadata rq !! "role" = Some (MStr "user")
    ∧ metadata ra !! "role" = Some (MStr "agent")
    ∧ memory (record_turn sv query answer w).2 !! mem_id USER_ID "user" query = Some rq
    ∧ memory (record_turn sv query answer w).2 !! mem_id USER_ID "agent" answer = Some ra.
Proof.
  intros Hq Ha Hup.
  unfold record_turn, history_append, mbind, M_bind.
  rewrite add_memory_run, Hq. simpl. rewrite Hup.
  rewrite add_memory_run, Ha. simpl. rewrite Hup. simpl.
  eexists _, _. split; [reflexivity|]. split; [reflexivity|].
  repeat split.
  - rewrite lookup_insert_ne by (apply not_eq_sym, user_agent_ids).
    apply lookup_insert_eq.
  - apply lookup_insert_eq.
Qed.

(** C6. When the generation service answers with a status other than 200,
    or the request raises, [query_ollama] returns an error string as the
    answer instead of raising; the turn goes on: the pair of the query and
    this error answer is appended to the history, and both texts are written
    to the Memory Store (the writes succeed when the embedder and the upserts
    do; [add_memory] guards neither). *)
Theorem turn_records_failed_generation (query refined context err : string)
    (w w1 w2 : world vector) :
  rephrase_query sv query w = (Ok refined, w1) ->
  build_context sv USER_ID refined w1 = (Ok context, w2) ->
  generation_failed (post sv (wire w2) (answer_request refined context)) err ->
  query_ollama sv refined context w2
  = (Ok err, sent (answer_request refined context) w2)
  ∧ String.prefix "[ERROR] Ollama " err = true
  ∧ conversation_history (turn sv query w).2
    = conversation_history w ++ [(query, err)]
  ∧ ∀ vq va,
      encode sv query = Ok vq ->
      encode sv err = Ok va ->
      (∀ m id r, upsert_fault sv m id r = None) ->
      ∃ rq ra,
        (turn sv query w).1 = Ok ()
        ∧ memory (turn sv query w).2
          = <[mem_id USER_ID "agent" err := ra]>
              (<[mem_id USER_ID "user" query := rq]> (memory w))
        ∧ document rq = query ∧ document ra = err
        ∧ memory (turn sv query w).2 !! mem_id USER_ID "user" query = Some rq
        ∧ memory (turn sv query w).2 !! mem_id USER_ID "agent" err = Some ra.
Proof.
  intros H1 H2 Hfail.
  pose proof (query_ollama_failed _ _ _ _ Hfail) as H3.
  pose proof (rephrase_query_frame sv query w) as (s & extra & E1 & _).
  rewrite H1 in E1. injection E1 as <- ->.
  pose proof (build_context_frame sv USER_ID refined
                (World (memory w) (conversation_history w) (wire w ++ extra) (clock w)))
    as (c & E2).
  rewrite H2 in E2. injection E2 as _ ->.
  rewrite (turn_run _ _ _ _ _ _ _ _ H1 H2 H3).
  split; [exact H3|]. split.
  { inversion Hfail; reflexivity. }
  split.
  - now destruct (record_turn_history query err
                    (sent (answer_request refined context)
                       (World (memory w) (conversation_history w) (wire w ++ extra) (clock w)))).
  - intros vq va Hq Ha Hup.
    destruct (record_turn_memory query err
                (sent (answer_request refined context)
                   (World (memory w) (conversation_history w) (wire w ++ extra) (clock w)))
                vq va Hq Ha Hup)
      as (rq & ra & R1 & R2 & R3 & R4 & _ & _ & R5 & R6).
    exists rq, ra. repeat split; assumption.
Qed.

(** C9. In a turn, the pair appended to the history and the record written
    for the user hold the text the user entered, not the rephrased query;
    the rephrased query is what the context is built from and what the prompt
    sent to the generation service holds: this prompt is the fixed
    instructions, the context under [Context:] and the rephrased query under
    [User question:]. *)
Theorem turn_records_original_query (query refined context answer : string)
    (w w1 w2 w3 : world vector) :
  rephrase_query sv query w = (Ok refined, w1) ->
  build_context sv USER_ID refined w1 = (Ok context, w2) ->
  query_ollama sv refined context w2 = (Ok answer, w3) ->
  turn sv query w = record_turn sv query answer w3
  ∧ conversation_history (turn sv query w).2
    = conversation_history w ++ [(query, answer)]
  ∧ wire (turn sv query w).2 = wire w1 ++ [answer_request refined context]
  ∧ prompt (answer_request refined context)
    = "You are a DevOps expert assistant." +:+ NL +:+
      "Use the provided context (memory + docs) to give accurate, step-by-step answers."
      +:+ NL +:+
      "If context is missing, answer with your own knowledge." +:+ NL +:+
      NL +:+
      "Context:" +:+ NL +:+
      context +:+ NL +:+
      NL +:+
      "User question:" +:+ NL +:+
      refined +:+ NL +:+
      NL +:+
      "Answer clearly:"
  ∧ ∀ vq va,
      encode sv query = Ok vq ->
      encode sv answer = Ok va ->
      (∀ m id r, upsert_fault sv m id r = None) ->
      ∃ rq ra,
        (turn sv query w).1 = Ok ()
        ∧ memory (turn sv query w).2
          = <[mem_id USER_ID "agent" answer := ra]>
              (<[mem_id USER_ID "user" query := rq]> (memory w))
        ∧ document rq = query ∧ document ra = answer
        ∧ metadata rq !! "role" = Some (MStr "user")
        ∧ metadata ra !! "role" = Some (MStr "agent").
Proof.
  intros H1 H2 H3.
  pose proof (rephrase_query_frame sv query w) as (s & extra & E1 & _).
  rewrite H1 in E1. injection E1 as <- ->.
  pose proof (build_context_frame sv USER_ID refined
                (World (memory w) (conversation_history w) (wire w ++ extra) (clock w)))
    as (c & E2).
  rewrite H2 in E2. injection E2 as _ ->.
  pose proof (query_ollama_frame refined context
                (World (memory w) (conversation_history w) (wire w ++ extra) (clock w)))
    as (a & E3).
  rewrite H3 in E3. injection E3 as <- ->.
  rewrite (turn_run _ _ _ _ _ _ _ _ H1 H2 H3).
  split; [reflexivity|].
  destruct (record_turn_history query answer
              (sent (answer_request refined context)
                 (World (memory w) (conversation_history w) (wire w ++ extra) (clock w))))
    as [Hh Hw].
  split; [exact Hh|]. split; [exact Hw|]. split; [reflexivity|].
  intros vq va Hq Ha Hup.
  destruct (record_turn_memory query answer
              (sent (answer_request refined context)
                 (World (memory w) (conversation_history w) (wire w ++ extra) (clock w)))
              vq va Hq Ha Hup)
    as (rq & ra & R1 & R2 & R3 & R4 & R5 & R6 & _).
  exists rq, ra. repeat split; assumption.
Qed.

End ConversationLoop.

(** ** The rest of [agent.py] *)

Lemma str_app_cons (x : ascii) (a b : string) :
  String x a +:+ b = String x (a +:+ b).
Proof. reflexivity. Qed.

Lemma str_app_assoc (a b c : string) : (a +:+ b) +:+ c = a +:+ (b +:+ c).
Proof.
  induction a as [|x a IH]; [reflexivity|].
  now rewrite !str_app_cons, IH.
Qed.

Lemma str_app_nil_r (a : string) : a +:+ "" = a.
Proof.
  induction a as [|x a IH]; [reflexivity|].
  now rewrite str_app_cons, IH.
Qed.

Section AgentMoreProofs.
Context {vector : Type} (sv : services vector).

(** X1. For a prompt of at least 3 tokens, [rephrase_query] makes one
    request and never raises.  It returns the stripped [response] text when
    the status is not 400 to 599 and the body is a JSON object whose
    [response] is a string; in every other case (the request raises, the
    status is 400 to 599, the body is no JSON, the key is missing, the value
    is no string) it returns the prompt as it is. *)
Theorem rephrase_query_outcome (prompt_ : string) (w : world vector) :
  (3 <= length (py_split prompt_))%nat ->
  let outcome := post sv (wire w) (rephrase_request prompt_) in
  rephrase_query sv prompt_ w
  = (Ok (default prompt_ (rephrase_reply outcome)), sent (rephrase_request prompt_) w)
  ∧ (∀ e, outcome = Raise e -> (rephrase_query sv prompt_ w).1 = Ok prompt_)
  ∧ (∀ res, outcome = Ok res -> 400 <= status_code res < 600 ->
            (rephrase_query sv prompt_ w).1 = Ok prompt_)
  ∧ (∀ res e, outcome = Ok res -> body_json res = Raise e ->
              (rephrase_query sv prompt_ w).1 = Ok prompt_)
  ∧ (∀ res items, outcome = Ok res -> body_json res = Ok (JObj items) ->
                  assoc "response" items = None ->
                  (rephrase_query sv prompt_ w).1 = Ok prompt_).
Proof.
  intros Hn outcome.
  assert (E : rephrase_query sv prompt_ w
              = (Ok (default prompt_ (rephrase_reply outcome)),
                 sent (rephrase_request prompt_) w)).
  { unfold rephrase_query.
    destruct (Nat.ltb_spec (length (py_split prompt_)) 3) as [H|_]; [lia|].
    unfold try_except, requests_post, lift, mbind at 1 2 3, M_bind, mret, M_ret, sent.
    fold outcome. unfold rephrase_reply.
    destruct outcome as [res|e]; simpl; [|reflexivity].
    destruct (ok res); simpl; [|reflexivity].
    destruct (body_json res) as [data|e]; simpl; [|reflexivity].
    destruct data as [| | | | |l|items]; simpl; try reflexivity.
    destruct (assoc "response" items) as [v|]; simpl; [|reflexivity].
    destruct v; reflexivity. }
  split; [exact E|]. rewrite E. simpl.
  split; [|split; [|split]].
  - intros e ->. reflexivity.
  - intros res -> Hs. simpl. unfold ok.
    destruct (Z.leb_spec 400 (status_code res)); [|lia].
    destruct (Z.ltb_spec (status_code res) 600); [|lia]. reflexivity.
  - intros res e -> Hb. simpl. rewrite Hb. now destruct (ok res).
  - intros res items -> Hb Ha. simpl. rewrite Hb, Ha. now destruct (ok res).
Qed.

Lemma concat_cons_empty (t : string) (ts : list string) :
  String.concat "" (t :: ts) = t +:+ String.concat "" ts.
Proof. destruct ts; simpl; [now rewrite str_app_nil_r | reflexivity]. Qed.

(** The exceptions of the body of the inner [try] do not depend on the
    answer so far, and the new answer is the old one and a token. *)
Lemma read_line_answer (answer line : string) :
  read_line sv answer line
  = match read_line sv "" line with
    | Ok token => Ok (answer +:+ token)
    | Raise e => Raise e
    end.
Proof.
  unfold read_line, print_token.
  destruct (json_loads sv line) as [data|e]; [|reflexivity]. cbn [mbind result_bind].
  destruct (json_get data "response" (JStr "")) as [token|e]; [|reflexivity].
  cbn [mbind result_bind].
  destruct (print_fault sv token) as [e|]; [reflexivity|].
  destruct token; reflexivity.
Qed.

(** The loop, line by line. *)
Lemma read_lines_cons (end_ : option exn) (answer line : string) (rest : list string) :
  read_lines sv end_ answer (line :: rest)
  = match line_token sv line with
    | Ok token => read_lines sv end_ (answer +:+ token) rest
    | Raise e => Raise e
    end.
Proof.
  cbn [read_lines]. unfold line_token.
  destruct (String.eqb line ""); [now rewrite str_app_nil_r|].
  rewrite read_line_answer.
  destruct (read_line sv "" line) as [token|e]; [reflexivity|].
  destruct (is_json_decode_error e); [now rewrite str_app_nil_r | reflexivity].
Qed.

(** Lines that have a token add their tokens, in the order of arrival, and
    the loop goes on with the lines after them. *)
Lemma read_lines_app (end_ : option exn) (lines rest : list string) :
  ∀ (answer : string) (tokens : list string),
    Forall2 (fun line token => line_token sv line = Ok token) lines tokens ->
    read_lines sv end_ answer (lines ++ rest)
    = read_lines sv end_ (answer +:+ String.concat "" tokens) rest.
Proof.
  induction lines as [|line more IH]; intros answer tokens H.
  - apply Forall2_nil_inv_l in H as ->. simpl. now rewrite str_app_nil_r.
  - apply Forall2_cons_inv_l in H as (t & ts & Ht & Hr & ->).
    rewrite concat_cons_empty, <- str_app_assoc, <- (IH _ _ Hr).
    rewrite <- app_comm_cons, read_lines_cons, Ht. reflexivity.
Qed.

(** The class of an exception decides whether the inner handler takes it. *)
Lemma is_json_decode_error_spec (e : exn) :
  is_json_decode_error e = bool_decide (exn_class e = "JSONDecodeError").
Proof.
  unfold is_json_decode_error.
  destruct (String.eqb_spec (exn_class e) "JSONDecodeError") as [H|H].
  - now rewrite bool_decide_eq_true_2.
  - now rewrite bool_decide_eq_false_2.
Qed.

(** X2. When the status is 200 and neither a line nor the stream raises,
    the answer of [query_ollama] is the concatenation, stripped, of the
    tokens in the order of the lines.  An empty line, a line on which
    [json.loads] raises a [JSONDecodeError] and an object without
    [response] add nothing; an object whose [response] is a string adds
    this string, when the console prints it. *)
Theorem query_ollama_streams_tokens (prompt_ context : string) (w : world vector)
    (res : response) (tokens : list string) :
  post sv (wire w) (answer_request prompt_ context) = Ok res ->
  status_code res = 200 ->
  broken res = None ->
  Forall2 (fun line token => line_token sv line = Ok token) (body_lines res) tokens ->
  query_ollama sv prompt_ context w
  = (Ok (py_strip (String.concat "" tokens)), sent (answer_request prompt_ context) w)
  ∧ line_token sv "" = Ok ""
  ∧ (∀ line e, json_loads sv line = Raise e -> exn_class e = "JSONDecodeError" ->
               line_token sv line = Ok "")
  ∧ (∀ line items, json_loads sv line = Ok (JObj items) ->
                   assoc "response" items = None ->
                   print_fault sv (JStr "") = None ->
                   line_token sv line = Ok "")
  ∧ (∀ line items t, line ≠ "" ->
                     json_loads sv line = Ok (JObj items) ->
                     assoc "response" items = Some (JStr t) ->
                     print_fault sv (JStr t) = None ->
                     line_token sv line = Ok t).
Proof.
  intros Hp Hs Hb Ht. split; [|split; [reflexivity|split; [|split]]].
  - unfold query_ollama, try_except, requests_post, lift, mbind, M_bind, mret, M_ret, sent.
    rewrite Hp, Hs, Hb. simpl.
    pose proof (read_lines_app None (body_lines res) [] "" tokens Ht) as E.
    rewrite app_nil_r in E. rewrite E. reflexivity.
  - intros line e Hl Hc. unfold line_token, read_line.
    destruct (String.eqb line ""); [reflexivity|].
    rewrite Hl. cbn [mbind result_bind].
    now rewrite is_json_decode_error_spec, bool_decide_eq_true_2.
  - intros line items Hl Ha Hpr. unfold line_token, read_line, print_token.
    destruct (String.eqb line ""); [reflexivity|].
    rewrite Hl. cbn [mbind result_bind json_get]. rewrite Ha. cbn [default from_option id].
    rewrite Hpr. reflexivity.
  - intros line items t Hn Hl Ha Hpr. unfold line_token, read_line, print_token.
    destruct (String.eqb_spec line ""); [contradiction|].
    rewrite Hl. cbn [mbind result_bind json_get]. rewrite Ha. cbn [default from_option id].
    rewrite Hpr. reflexivity.
Qed.

(** X3. With the status 200, the first line that raises anything but a
    [JSONDecodeError] turns the whole answer into the error string of
    [query_ollama] with the message of this exception, whatever the tokens
    read before and whatever follows; so does a stream that breaks after
    lines that all have a token.  Such a line is one on which [json.loads]
    raises another exception, one that decodes to something other than an
    object, one whose token the console cannot print, and an object whose
    [response] is no string. *)
Theorem query_ollama_aborted_stream (prompt_ context : string) (w : world vector)
    (res : response) :
  post sv (wire w) (answer_request prompt_ context) = Ok res ->
  status_code res = 200 ->
  (∀ before bad after tokens e,
     body_lines res = before ++ bad :: after ->
     Forall2 (fun line token => line_token sv line = Ok token) before tokens ->
     line_token sv bad = Raise e ->
     query_ollama sv prompt_ context w
     = (Ok ("[ERROR] Ollama request failed: " +:+ exn_str e),
        sent (answer_request prompt_ context) w))
  ∧ (∀ e tokens,
       broken res = Some e ->
       Forall2 (fun line token => line_token sv line = Ok token) (body_lines res) tokens ->
       query_ollama sv prompt_ context w
       = (Ok ("[ERROR] Ollama request failed: " +:+ exn_str e),
          sent (answer_request prompt_ context) w))
  ∧ (∀ line e, line ≠ "" ->
               json_loads sv line = Raise e ->
               exn_class e ≠ "JSONDecodeError" ->
               line_token sv line = Raise e)
  ∧ (∀ line data, line ≠ "" ->
                  json_loads sv line = Ok data ->
                  (∀ items, data ≠ JObj items) ->
                  ∃ e, line_token sv line = Raise e ∧ exn_class e = "AttributeError")
  ∧ (∀ line items e, line ≠ "" ->
                     json_loads sv line = Ok (JObj items) ->
                     print_fault sv (default (JStr "") (assoc "response" items)) = Some e ->
                     exn_class e ≠ "JSONDecodeError" ->
                     line_token sv line = Raise e)
  ∧ (∀ line items token, line ≠ "" ->
                         json_loads sv line = Ok (JObj items) ->
                         assoc "response" items = Some token ->
                         (∀ t, token ≠ JStr t) ->
                         print_fault sv token = None ->
                         ∃ e, line_token sv line = Raise e ∧ exn_class e = "TypeError").
Proof.
  intros Hp Hs. split; [|split; [|split; [|split; [|split]]]].
  - intros before bad after tokens e Hl Ht Hbad.
    unfold query_ollama, try_except, requests_post, lift, mbind, M_bind, mret, M_ret, sent.
    rewrite Hp, Hs, Hl. simpl.
    rewrite (read_lines_app _ _ _ _ _ Ht), read_lines_cons, Hbad. reflexivity.
  - intros e tokens Hb Ht.
    unfold query_ollama, try_except, requests_post, lift, mbind, M_bind, mret, M_ret, sent.
    rewrite Hp, Hs, Hb. simpl.
    pose proof (read_lines_app (Some e) (body_lines res) [] "" tokens Ht) as E.
    rewrite app_nil_r in E. rewrite E. reflexivity.
  - intros line e Hn Hl Hc. unfold line_token, read_line.
    destruct (String.eqb_spec line ""); [contradiction|].
    rewrite Hl. cbn [mbind result_bind].
    now rewrite is_json_decode_error_spec, bool_decide_eq_false_2.
  - intros line data Hn Hl Hd. unfold line_token, read_line.
    destruct (String.eqb_spec line ""); [contradiction|].
    rewrite Hl. cbn [mbind result_bind].
    destruct data as [| | | | | |items]; try (eexists; split; reflexivity).
    now destruct (Hd items).
  - intros line items e Hn Hl Hpr Hc. unfold line_token, read_line, print_token.
    destruct (String.eqb_spec line ""); [contradiction|].
    rewrite Hl. cbn [mbind result_bind json_get]. rewrite Hpr. cbn [check mbind result_bind].
    now rewrite is_json_decode_error_spec, bool_decide_eq_false_2.
  - intros line items token Hn Hl Ha Ht Hpr. unfold line_token, read_line, print_token.
    destruct (String.eqb_spec line ""); [contradiction|].
    rewrite Hl. cbn [mbind result_bind json_get]. rewrite Ha. cbn [default from_option id].
    rewrite Hpr. cbn [check mbind result_bind].
    destruct token as [| | | |t| |]; try (eexists; split; reflexivity).
    now destruct (Ht t).
Qed.

(** X4. [add_memory] contains no failure: the exception it raises is the
    one of the embedder or of the upsert, and the Memory Store is then as
    before.  When it returns, the store has the record under the derived id.
    When the embedder fails the whole state is as before: the clock is not
    read. *)
Theorem add_memory_atomic (user_id text role : string) (w : world vector) :
  let out := add_memory sv user_id text role w in
  (∀ e, out.1 = Raise e ->
        memory out.2 = memory w
        ∧ (encode sv text = Raise e
           ∨ ∃ v, encode sv text = Ok v
                  ∧ upsert_fault sv (memory w) (mem_id user_id role text)
                      (written sv user_id text role v w) = Some e))
  ∧ (out.1 = Ok () ->
     ∃ v, encode sv text = Ok v
          ∧ memory out.2
            = <[mem_id user_id role text := written sv user_id text role v w]> (memory w))
  ∧ (∀ e, encode sv text = Raise e -> out = (Raise e, w)).
Proof.
  cbv zeta. rewrite add_memory_run.
  destruct (encode sv text) as [v|e0]; simpl.
  - destruct (upsert_fault _ _ _ _) as [e1|] eqn:Hu; simpl.
    + split; [|split]; [|discriminate|discriminate].
      intros e [= <-]. split; [reflexivity|]. right. eauto.
    + split; [discriminate|]. split; [eauto|discriminate].
  - split; [|split]; [|discriminate|].
    + intros e [= <-]. split; [reflexivity | now left].
    + intros e [= <-]. reflexivity.
Qed.

(** [add_memory] deletes nothing from the Memory Store. *)
Lemma add_memory_keeps (user_id text role : string) (w : world vector) :
  dom (memory w) ⊆ dom (memory (add_memory sv user_id text role w).2).
Proof.
  rewrite add_memory_run.
  destruct (encode sv text) as [v|e]; simpl; [|reflexivity].
  destruct (upsert_fault _ _ _ _); simpl; [reflexivity|].
  apply dom_insert_subseteq.
Qed.

(** X5. Whatever its outcome, [add_memory] changes no record other than
    the one of the id it derives, deletes no record, leaves the history and
    the requests as they are, and reads the clock at most once. *)
Theorem add_memory_touches_one_record (user_id text role : string) (w : world vector) :
  let w' := (add_memory sv user_id text role w).2 in
  (∀ id, id ≠ mem_id user_id role text -> memory w' !! id = memory w !! id)
  ∧ dom (memory w) ⊆ dom (memory w')
  ∧ conversation_history w' = conversation_history w
  ∧ wire w' = wire w
  ∧ (clock w <= clock w' <= S (clock w))%nat.
Proof.
  rewrite add_memory_run.
  destruct (encode sv text) as [v|e]; simpl.
  - destruct (upsert_fault _ _ _ _); simpl.
    + repeat split; try reflexivity; lia.
    + split; [intros id Hid; now rewrite lookup_insert_ne by congruence|].
      split; [apply dom_insert_subseteq|]. repeat split; lia.
  - repeat split; try reflexivity; lia.
Qed.

(** X6. The id does not tell the user id from the role: the user [u] with
    the role [r1_r2] and the user [u_r1] with the role [r2] get the same id
    for the same text.  A write for the second overwrites the record of the
    first: the store is no larger, and the record is now one of [u_r1]. *)
Theorem mem_id_separator_collision (user_id r1 r2 text : string) (w : world vector) :
  let id := mem_id user_id (r1 +:+ "_" +:+ r2) text in
  let w1 := (add_memory sv user_id text (r1 +:+ "_" +:+ r2) w).2 in
  let w2 := (add_memory sv (user_id +:+ "_" +:+ r1) text r2 w1).2 in
  mem_id (user_id +:+ "_" +:+ r1) r2 text = id
  ∧ ∀ v, encode sv text = Ok v ->
      (∀ m r, upsert_fault sv m id r = None) ->
      memory w1 !! id = Some (written sv user_id text (r1 +:+ "_" +:+ r2) v w)
      ∧ memory w2 !! id = Some (written sv (user_id +:+ "_" +:+ r1) text r2 v w1)
      ∧ size (memory w2) = size (memory w1)
      ∧ metadata (written sv (user_id +:+ "_" +:+ r1) text r2 v w1) !! "user_id"
        = Some (MStr (user_id +:+ "_" +:+ r1)).
Proof.
  intros id w1 w2.
  assert (Hid : mem_id (user_id +:+ "_" +:+ r1) r2 text = id).
  { unfold id, mem_id. now rewrite !str_app_assoc. }
  split; [exact Hid|]. intros v Hv Hup.
  assert (E1 : memory w1 = <[id := written sv user_id text (r1 +:+ "_" +:+ r2) v w]> (memory w)).
  { unfold w1. rewrite add_memory_run, Hv. simpl. fold id. now rewrite Hup. }
  assert (E2 : memory w2 = <[id := written sv (user_id +:+ "_" +:+ r1) text r2 v w1]> (memory w1)).
  { unfold w2. rewrite add_memory_run, Hv. simpl. rewrite Hid. now rewrite Hup. }
  split; [rewrite E1; apply lookup_insert_eq|].
  split; [rewrite E2; apply lookup_insert_eq|].
  split; [|reflexivity].
  rewrite E2. apply map_size_insert_Some. rewrite E1, lookup_insert_eq. eauto.
Qed.

(** X7. The id keeps 8 of the 32 digits of the digest, so two texts with
    different digests can share an id, for every user and role.  The write
    of the second text then replaces the record of the first: the first
    text is no longer in the Memory Store. *)
Theorem mem_id_truncation_collision :
  ∃ t1 t2 : string,
    t1 ≠ t2
    ∧ hash_text t1 ≠ hash_text t2
    ∧ (∀ user_id role, mem_id user_id role t1 = mem_id user_id role t2)
    ∧ ∀ user_id role (w : world vector) v1 v2,
        encode sv t1 = Ok v1 ->
        encode sv t2 = Ok v2 ->
        (∀ m id r, upsert_fault sv m id r = None) ->
        let w1 := (add_memory sv user_id t1 role w).2 in
        let w2 := (add_memory sv user_id t2 role w1).2 in
        document <$> memory w1 !! mem_id user_id role t1 = Some t1
        ∧ document <$> memory w2 !! mem_id user_id role t1 = Some t2
        ∧ size (memory w2) = size (memory w1).
Proof.
  exists "restart service 45405", "restart service 57855".
  assert (Hid : ∀ user_id role,
            mem_id user_id role "restart service 45405"
            = mem_id user_id role "restart service 57855").
  { intros user_id role. unfold mem_id.
    assert (E : slice_to 8 (hash_text "restart service 45405")
                = slice_to 8 (hash_text "restart service 57855"))
      by (vm_compute; reflexivity).
    now rewrite E. }
  split; [discriminate|]. split; [vm_compute; discriminate|].
  split; [exact Hid|].
  intros user_id role w v1 v2 H1 H2 Hup w1 w2.
  assert (E1 : memory w1
               = <[mem_id user_id role "restart service 45405"
                   := written sv user_id "restart service 45405" role v1 w]> (memory w)).
  { unfold w1. rewrite add_memory_run, H1. simpl. now rewrite Hup. }
  assert (E2 : memory w2
               = <[mem_id user_id role "restart service 45405"
                   := written sv user_id "restart service 57855" role v2 w1]> (memory w1)).
  { unfold w2. rewrite add_memory_run, H2. simpl. rewrite <- Hid. now rewrite Hup. }
  split; [rewrite E1, lookup_insert_eq; reflexivity|].
  split; [rewrite E2, lookup_insert_eq; reflexivity|].
  rewrite E2. apply map_size_insert_Some. rewrite E1, lookup_insert_eq. eauto.
Qed.

(** X8. What [add_memory] writes for a user passes the filter of
    [recall_memory] for this user: when the store ranks the new record
    first and the query does not fail, the recall for a positive [top_k]
    starts with the text just written. *)
Theorem add_memory_then_recall (user_id text role query : string) (top_k : Z)
    (w : world vector) (v : vector) (others : list string) :
  encode sv text = Ok v ->
  upsert_fault sv (memory w) (mem_id user_id role text)
    (written sv user_id text role v w) = None ->
  let w' := (add_memory sv user_id text role w).2 in
  query_fault sv (memory w') query top_k = None ->
  0 < top_k ->
  nearest sv (memory w') query = mem_id user_id role text :: others ->
  ∃ more, recall_memory sv user_id query top_k w' = (Ok (join NL (text :: more)), w').
Proof.
  intros Hv Hu w' Hq Hk Hn.
  assert (Hm : memory w' !! mem_id user_id role text = Some (written sv user_id text role v w)).
  { unfold w'. rewrite add_memory_run, Hv. simpl. rewrite Hu. simpl. apply lookup_insert_eq. }
  rewrite recall_memory_run. unfold recalled. rewrite Hq.
  destruct (Z.leb_spec top_k 0) as [|_]; [lia|].
  assert (Hb : bool_decide
                 (memory_metadata user_id role (now_isoformat sv (clock w)) !! "user_id"
                  = Some (MStr user_id)) = true)
    by (apply bool_decide_eq_true_2, lookup_insert_eq).
  unfold memory_hits. rewrite Hn. simpl. rewrite Hm. simpl. rewrite Hb. simpl.
  destruct (Z.to_nat top_k) as [|n] eqn:En; [lia|].
  simpl. eexists. reflexivity.
Qed.


(** A turn appends one pair to the history, with the query as entered,
    whatever the outcome; it deletes nothing from the Memory Store. *)
Lemma turn_frame (query : string) (w : world vector) :
  ∃ answer,
    conversation_history (turn sv query w).2
    = conversation_history w ++ [(query, answer)]
    ∧ dom (memory w) ⊆ dom (memory (turn sv query w).2).
Proof.
  destruct (rephrase_query_frame sv query w) as (refined & extra & E1 & _).
  destruct (build_context_frame sv USER_ID refined
              (World (memory w) (conversation_history w) (wire w ++ extra) (clock w)))
    as (context & E2).
  destruct (query_ollama_frame sv refined context
              (World (memory w) (conversation_history w) (wire w ++ extra) (clock w)))
    as (answer & E3).
  exists answer. rewrite (turn_run sv _ _ _ _ _ _ _ _ E1 E2 E3).
  split.
  { match goal with
    | |- context [record_turn sv _ _ ?x] =>
      now destruct (record_turn_history sv query answer x)
    end. }
  unfold record_turn, history_append, mbind, M_bind. simpl.
  set (w1 := World _ _ _ _).
  pose proof (add_memory_keeps USER_ID query "user" w1) as D1.
  destruct (add_memory sv USER_ID query "user" w1) as [[[]|e] w2]; simpl in *.
  - pose proof (add_memory_keeps USER_ID answer "agent" w2) as D2.
    etrans; [exact D1|exact D2].
  - exact D1.
Qed.

(** X13. The loop only appends to the history: after any run, the history
    is the one before followed by one pair per turn made, whose queries are
    the stripped lines in the order entered, blank lines left out, up to the
    first command to leave; all of them when the loop ends without an
    exception.  No record of the Memory Store is deleted. *)
Theorem main_loop_history (inputs : list string) (w : world vector) :
  ∃ turns,
    conversation_history (main_loop sv inputs w).2 = conversation_history w ++ turns
    ∧ turns.*1 `prefix_of` asked inputs
    ∧ ((main_loop sv inputs w).1 = Ok () -> turns.*1 = asked inputs)
    ∧ dom (memory w) ⊆ dom (memory (main_loop sv inputs w).2).
Proof.
  revert w. induction inputs as [|line rest IH]; intros w.
  - exists []. simpl. rewrite app_nil_r. repeat split; try done.
  - simpl. destruct (bool_decide (py_lower (py_strip line) ∈ ["exit"; "quit"])).
    { exists []. simpl. rewrite app_nil_r. repeat split; try done. }
    destruct (String.eqb (py_strip line) ""); [apply IH|].
    destruct (turn_frame (py_strip line) w) as (answer & Hh & Hd).
    unfold mbind, M_bind.
    destruct (turn sv (py_strip line) w) as [[[]|e] w1]; simpl in *.
    + destruct (IH w1) as (turns & H1 & H2 & H3 & H4).
      exists ((py_strip line, answer) :: turns).
      rewrite H1, Hh, <- app_assoc. simpl.
      split; [reflexivity|]. split; [now apply prefix_cons|].
      split; [intros H; cbn; f_equal; exact (H3 H)|].
      etrans; [exact Hd|exact H4].
    + exists [(py_strip line, answer)]. simpl.
      split; [exact Hh|]. split; [apply prefix_cons, prefix_nil|].
      split; [discriminate|exact Hd].
Qed.

(** X14. Blank lines cost nothing: the loop skips them without changing the
    state or making a request.  A command to leave after them ends the loop
    with the state as it was, whatever follows; when the input ends after
    them, the loop ends with [EOFError]. *)
Theorem main_loop_idle_lines (blanks rest : list string) (w : world vector) :
  Forall (fun line => py_strip line = "") blanks ->
  main_loop sv (blanks ++ rest) w = main_loop sv rest w
  ∧ (∀ cmd, py_lower (py_strip cmd) ∈ ["exit"; "quit"] ->
            main_loop sv (blanks ++ cmd :: rest) w = (Ok (), w))
  ∧ ∃ e, main_loop sv blanks w = (Raise e, w) ∧ exn_class e = "EOFError".
Proof.
  intros Hb.
  assert (Hskip : ∀ tail, main_loop sv (blanks ++ tail) w = main_loop sv tail w).
  { intros tail. induction Hb as [|line blanks Hl _ IH]; [reflexivity|].
    simpl. rewrite Hl. simpl. exact IH. }
  split; [apply Hskip|]. split.
  - intros cmd Hc. rewrite Hskip. simpl.
    now rewrite bool_decide_eq_true_2 by assumption.
  - pose proof (Hskip []) as E. rewrite app_nil_r in E. rewrite E.
    eexists. split; reflexivity.
Qed.


Lemma context_blocks_complete (metas : list (option Metadata))
    (docs : list (option string)) :
  ∀ i : nat,
    (metas = [] ∨ ∀ j, (j < length docs)%nat -> ∃ m, metas !! (i + j)%nat = Some (Some m)) ->
    context_blocks metas i docs
    = Ok (imap (fun j doc => block_of metas (i + j) doc) docs).
Proof.
  induction docs as [|doc rest IH]; intros i H; [reflexivity|].
  simpl.
  assert (Hs : source_at metas i = Ok (match metas !! i with
                                       | Some (Some m) => default (MStr "unknown") (m !! "source")
                                       | _ => MStr "unknown"
                                       end)).
  { unfold source_at, getitem_list. destruct H as [->|H]; [reflexivity|].
    destruct (H 0%nat) as (m & Hm); [simpl; lia|].
    rewrite Nat.add_0_r in Hm. rewrite Hm. simpl.
    destruct metas; [discriminate|reflexivity]. }
  rewrite Hs. simpl. rewrite IH.
  - simpl. f_equal. f_equal.
    + unfold block_of, source_of. rewrite Nat.add_0_r.
      destruct (metas !! i) as [[m|]|]; try reflexivity.
      destruct (m !! "source"); reflexivity.
    + apply imap_ext. intros j d _. simpl. f_equal. lia.
  - destruct H as [H|H]; [now left|right].
    intros j Hj. replace (S i + j)%nat with (i + S j)%nat by lia.
    apply H. simpl. lia.
Qed.

Lemma context_blocks_bad (metas : list (option Metadata)) (docs : list (option string)) :
  metas ≠ [] ->
  ∀ i j : nat,
    (j < length docs)%nat ->
    metas !! (i + j)%nat = None ∨ metas !! (i + j)%nat = Some None ->
    ∃ e, context_blocks metas i docs = Raise e
         ∧ (exn_class e = "IndexError" ∨ exn_class e = "AttributeError").
Proof.
  intros Hne. induction docs as [|doc rest IH]; intros i j Hj Hbad; [simpl in Hj; lia|].
  simpl. unfold source_at, getitem_list.
  destruct metas as [|m0 ms] eqn:Em; [contradiction|]. rewrite <- Em in *.
  destruct (metas !! i) as [[m|]|] eqn:Hi; simpl.
  - destruct j as [|j].
    + rewrite Nat.add_0_r, Hi in Hbad. destruct Hbad; discriminate.
    + destruct (IH (S i) j) as (e & He & Hc).
      * simpl in Hj. lia.
      * now replace (S i + j)%nat with (i + S j)%nat by lia.
      * rewrite He. simpl. eauto.
  - eexists. split; [reflexivity | now right].
  - eexists. split; [reflexivity | now left].
Qed.

(** X9. [search_docs] succeeds whenever the result of the store has a
    batch of documents and either no metadata at all (the key is missing or
    its batch is empty) or a metadata dictionary for every chunk.  It then
    returns the blocks in the order of the store; without metadata every
    block is labelled [unknown]. *)
Theorem search_docs_succeeds (query_text : string) (w : world vector)
    (results : QueryResult) (docs : list (option string))
    (others : list (list (option string))) (metas : list (option Metadata)) :
  static_query sv query_text MAX_CONTEXT_DOCS = Ok results ->
  documents results = Batches (docs :: others) ->
  first (get_key (metadatas results) [[]]) = Ok metas ->
  (metas = [] ∨ ∀ i, (i < length docs)%nat -> ∃ m, metas !! i = Some (Some m)) ->
  search_docs sv query_text w
  = (Ok (join (NL +:+ NL)
           (imap (fun i doc =>
                    "[Source: " +:+ source_of metas i +:+ "]" +:+ NL +:+ str_doc doc)
                 docs)), w)
  ∧ (metas = [] ->
     search_docs sv query_text w
     = (Ok (join (NL +:+ NL)
              ((fun doc => "[Source: unknown]" +:+ NL +:+ str_doc doc) <$> docs)), w)).
Proof.
  intros Hq Hd Hm Hw.
  assert (E : search_docs sv query_text w
              = (Ok (join (NL +:+ NL) (imap (block_of metas) docs)), w)).
  { rewrite search_docs_run, Hq. simpl. unfold format_results. rewrite Hd. simpl.
    rewrite Hm. simpl. rewrite (context_blocks_complete metas docs 0 Hw). reflexivity. }
  split; [exact E|].
  intros ->. rewrite E. f_equal. f_equal. f_equal.
  clear. induction docs as [|d docs IH]; [reflexivity|].
  rewrite imap_cons, fmap_cons. f_equal. exact IH.
Qed.

(** X10. The search is all or nothing: when the metadata batch is not
    empty, one chunk whose metadata is [None] or missing makes
    [search_docs] return the error marker instead of any chunk. *)
Theorem search_docs_needs_every_metadata (query_text : string) (w : world vector)
    (results : QueryResult) (docs : list (option string))
    (others : list (list (option string))) (metas : list (option Metadata)) (i : nat) :
  static_query sv query_text MAX_CONTEXT_DOCS = Ok results ->
  documents results = Batches (docs :: others) ->
  first (get_key (metadatas results) [[]]) = Ok metas ->
  metas ≠ [] ->
  (i < length docs)%nat ->
  metas !! i = None ∨ metas !! i = Some None ->
  ∃ e, (exn_class e = "IndexError" ∨ exn_class e = "AttributeError")
       ∧ search_docs sv query_text w
         = (Ok ("[ERROR] search_docs failed: " +:+ exn_str e), w).
Proof.
  intros Hq Hd Hm Hne Hi Hbad.
  destruct (context_blocks_bad metas docs Hne 0 i Hi Hbad) as (e & He & Hc).
  exists e. split; [exact Hc|].
  rewrite search_docs_run, Hq. simpl. unfold format_results. rewrite Hd. simpl.
  rewrite Hm. simpl. rewrite He. reflexivity.
Qed.

(** X11. When the query of the Memory Store and the query of the Static KB
    both fail, [build_context] still returns the three sections: the
    short-term turns, an empty long-term section, and the error marker of
    [search_docs] as the Docs section. *)
Theorem build_context_degraded (user_id user_query : string) (w : world vector)
    (e1 e2 : exn) :
  query_fault sv (memory w) user_query 3 = Some e1 ->
  static_query sv user_query MAX_CONTEXT_DOCS = Raise e2 ->
  build_context sv user_id user_query w
  = (Ok ("Short-term:" +:+ NL +:+
         join NL (format_turn <$> slice_from (- MEMORY_SIZE) (conversation_history w))
         +:+ NL +:+ NL +:+
         "Long-term memory:" +:+ NL +:+ NL +:+ NL +:+
         "Docs:" +:+ NL +:+ "[ERROR] search_docs failed: " +:+ exn_str e2), w).
Proof.
  intros H1 H2.
  unfold build_context, history, mbind, M_bind. simpl.
  rewrite recall_memory_run. unfold recalled. rewrite H1. simpl.
  rewrite search_docs_run, H2. reflexivity.
Qed.

(** X12. The turn is appended to the history before the writes to the
    Memory Store.  When the embedder fails on the query, the turn ends with
    this exception, the history has the new pair and the store is as
    before; when it fails on the answer, the store has the query and not
    the answer.  In both cases the loop ends with the exception and reads
    no further line. *)
Theorem turn_failed_write (query refined context answer : string)
    (w w1 w2 w3 : world vector) :
  rephrase_query sv query w = (Ok refined, w1) ->
  build_context sv USER_ID refined w1 = (Ok context, w2) ->
  query_ollama sv refined context w2 = (Ok answer, w3) ->
  (∀ e, encode sv query = Raise e ->
        (turn sv query w).1 = Raise e
        ∧ conversation_history (turn sv query w).2
          = conversation_history w ++ [(query, answer)]
        ∧ memory (turn sv query w).2 = memory w)
  ∧ (∀ vq e, encode sv query = Ok vq ->
       (∀ m id r, upsert_fault sv m id r = None) ->
       encode sv answer = Raise e ->
       (turn sv query w).1 = Raise e
       ∧ conversation_history (turn sv query w).2
         = conversation_history w ++ [(query, answer)]
       ∧ ∃ rq, document rq = query
               ∧ memory (turn sv query w).2
                 = <[mem_id USER_ID "user" query := rq]> (memory w))
  ∧ (∀ line rest e,
       py_strip line = query ->
       py_lower query ∉ ["exit"; "quit"] ->
       query ≠ "" ->
       (turn sv query w).1 = Raise e ->
       main_loop sv (line :: rest) w = (Raise e, (turn sv query w).2)).
Proof.
  intros H1 H2 H3.
  pose proof (rephrase_query_frame sv query w) as (s & extra & E1 & _).
  rewrite H1 in E1. injection E1 as <- ->.
  pose proof (build_context_frame sv USER_ID refined
                (World (memory w) (conversation_history w) (wire w ++ extra) (clock w)))
    as (c & E2).
  rewrite H2 in E2. injection E2 as _ ->.
  pose proof (query_ollama_frame sv refined context
                (World (memory w) (conversation_history w) (wire w ++ extra) (clock w)))
    as (a & E3).
  rewrite H3 in E3. injection E3 as <- ->.
  rewrite (turn_run sv _ _ _ _ _ _ _ _ H1 H2 H3).
  split; [|split].
  - intros e He. unfold record_turn, history_append, mbind, M_bind. simpl.
    rewrite add_memory_run, He. simpl. repeat split.
  - intros vq e Hq Hup He. unfold record_turn, history_append, mbind, M_bind. simpl.
    rewrite add_memory_run, Hq. simpl. rewrite Hup.
    rewrite add_memory_run, He. simpl.
    split; [reflexivity|]. split; [reflexivity|].
    eexists. split; [|reflexivity]. reflexivity.
  - intros line rest e Hl Hc Hn Hr.
    subst query. rewrite (main_loop_turn sv line rest w Hc Hn).
    unfold mbind, M_bind.
    rewrite (turn_run sv _ _ _ _ _ _ _ _ H1 H2 H3).
    destruct (record_turn sv _ _ _) as [[[]|e'] w']; simpl in *; [discriminate|].
    now injection Hr as ->.
Qed.

End AgentMoreProofs.

(** ** The offline indexer *)

Section IndexerProofs.
Context {vector : Type} (ix : indexer vector).

Lemma index_files_spec (root : string) (files : list string) :
  ∀ st st',
    index_files ix root files st = Ok st' <->
    Forall (fun p => ∃ raw, read_text ix p = Ok raw)
      (path_join root <$> List.filter is_text_file files)
    ∧ st' = (st.1 ++ (content ix <$> List.filter (nonblank ix)
                        (path_join root <$> List.filter is_text_file files)),
             st.2 ++ List.filter (nonblank ix)
                        (path_join root <$> List.filter is_text_file files)).
Proof.
  induction files as [|f more IH]; intros [docs ids] st'.
  - simpl. rewrite !app_nil_r. split.
    + intros [= <-]. split; [constructor | reflexivity].
    + intros [_ ->]. reflexivity.
  - cbn [index_files List.filter]. unfold index_file.
    destruct (is_text_file f) eqn:Hf.
    + cbn [fmap list_fmap List.filter].
      destruct (read_text ix (path_join root f)) as [raw|e] eqn:Hr.
      * assert (Hc : content ix (path_join root f) = py_strip raw)
          by (unfold content; now rewrite Hr).
        assert (Hn : nonblank ix (path_join root f) = negb (String.eqb (py_strip raw) ""))
          by (unfold nonblank; now rewrite Hc).
        rewrite Hn. rewrite Forall_cons. cbn [mbind result_bind].
        destruct (String.eqb (py_strip raw) "") eqn:Hb;
          cbn [negb mbind result_bind fmap list_fmap]; rewrite IH; cbn [fst snd].
        -- split.
           ++ intros [Hall ->]. split; [split; eauto|reflexivity].
           ++ intros [[_ Hall] ->]. split; [exact Hall|reflexivity].
        -- rewrite Hc, <- !app_assoc. cbn [app]. split.
           ++ intros [Hall ->]. split; [split; eauto|reflexivity].
           ++ intros [[_ Hall] ->]. split; [exact Hall|reflexivity].
      * cbn [mbind result_bind]. split; [discriminate|].
        intros [Hall _]. apply Forall_cons in Hall as [(raw & Hraw) _]. congruence.
    + cbn [mbind result_bind]. apply IH.
Qed.

Lemma candidates_cons (d : string * list string) (dirs : list (string * list string)) :
  candidates (d :: dirs)
  = (path_join d.1 <$> List.filter is_text_file d.2) ++ candidates dirs.
Proof. reflexivity. Qed.

Lemma index_walk_spec (dirs : list (string * list string)) :
  ∀ st st',
    index_walk ix dirs st = Ok st' <->
    Forall (fun p => ∃ raw, read_text ix p = Ok raw) (candidates dirs)
    ∧ st' = (st.1 ++ (content ix <$> indexed ix dirs), st.2 ++ indexed ix dirs).
Proof.
  unfold indexed.
  induction dirs as [|[root files] more IH]; intros [docs ids] st'.
  - simpl. rewrite !app_nil_r. split.
    + intros [= <-]. split; [constructor | reflexivity].
    + intros [_ ->]. reflexivity.
  - cbn [index_walk]. rewrite candidates_cons, List.filter_app, fmap_app, Forall_app.
    cbn [fst snd].
    destruct (index_files ix root files (docs, ids)) as [st1|e] eqn:H1;
      cbn [mbind result_bind].
    + apply index_files_spec in H1 as [Hr ->]. cbn [fst snd].
      rewrite IH. cbn [fst snd]. rewrite <- !app_assoc. intuition.
    + split; [discriminate|]. intros [[Hr _] _].
      assert (E : index_files ix root files (docs, ids)
                  = Ok ((docs, ids).1 ++ (content ix <$> List.filter (nonblank ix)
                          (path_join root <$> List.filter is_text_file files)),
                        (docs, ids).2 ++ List.filter (nonblank ix)
                          (path_join root <$> List.filter is_text_file files)))
        by (apply index_files_spec; split; [exact Hr|reflexivity]).
      congruence.
Qed.

Lemma indexed_nonblank (dirs : list (string * list string)) :
  Forall (fun p => content ix p ≠ "") (indexed ix dirs).
Proof.
  unfold indexed. apply Forall_forall. intros p Hp.
  apply list_elem_of_In, filter_In in Hp as [_ Hp].
  unfold nonblank in Hp. apply negb_true_iff in Hp.
  now apply String.eqb_neq in Hp.
Qed.

(** X15. The loops of the indexer end without an exception exactly when
    every file of the walk whose name ends in [.txt] or [.md] can be read.
    The ids are then the paths of those whose stripped text is not empty, in
    the order of the walk, and the documents are their stripped texts, in
    the same order. *)
Theorem index_walk_collects (dirs : list (string * list string))
    (docs ids : list string) :
  index_walk ix dirs ([], []) = Ok (docs, ids) <->
  Forall (fun p => ∃ raw, read_text ix p = Ok raw) (candidates dirs)
  ∧ ids = List.filter (fun p => negb (String.eqb (content ix p) "")) (candidates dirs)
  ∧ docs = content ix <$> ids.
Proof.
  rewrite index_walk_spec. cbn [fst snd app]. unfold indexed.
  change (nonblank ix) with (fun p => negb (String.eqb (content ix p) "")).
  split.
  - intros [Hr [= -> ->]]. auto.
  - intros (Hr & -> & ->). auto.
Qed.

(** X16. When a run of the indexer adds something, the documents are not
    empty, there is one id per document, the id of a document is the path of
    a [.txt] or [.md] file of the walk, the document is the stripped text of
    this file and is not empty, and the embeddings are those of the
    documents. *)
Theorem build_index_added (created : bool) (docs : list string)
    (embeddings : list vector) (ids : list string) :
  build_index ix = Ok (Added created docs embeddings ids) ->
  docs ≠ []
  ∧ length docs = length ids
  ∧ ids = indexed ix (walk ix DATA_DIR)
  ∧ Forall2 (fun doc path =>
               ∃ raw, read_text ix path = Ok raw ∧ doc = py_strip raw ∧ doc ≠ "")
            docs ids
  ∧ Forall (fun path => ∃ d f, d ∈ walk ix DATA_DIR ∧ f ∈ d.2
                               ∧ is_text_file f = true ∧ path = path_join d.1 f) ids
  ∧ encode_all ix docs = Ok embeddings
  ∧ collection_add ix docs embeddings ids = None.
Proof.
  unfold build_index, check.
  destruct (connect ix); [discriminate|]. cbn [mbind result_bind].
  destruct (load_model ix EMBEDDING_MODEL); [discriminate|]. cbn [mbind result_bind].
  destruct (match get_collection ix COLLECTION_NAME with
            | Some _ => _ | None => _ end) as [c|e]; [|discriminate].
  cbn [mbind result_bind].
  destruct (index_walk ix (walk ix DATA_DIR) ([], [])) as [[ds ps]|e] eqn:Hw;
    [|discriminate].
  cbn [mbind result_bind fst snd].
  destruct ds as [|d0 ds']; [discriminate|].
  destruct (encode_all ix (d0 :: ds')) as [embs|e] eqn:He; [|discriminate].
  cbn [mbind result_bind].
  destruct (collection_add ix (d0 :: ds') embs ps) eqn:Ha; [discriminate|].
  cbn [mbind result_bind]. intros [= <- <- <- <-].
  apply index_walk_spec in Hw as [Hr [= Hd Hp]]. cbn [app] in Hd, Hp.
  split; [discriminate|].
  split; [rewrite Hd, Hp; apply length_fmap|].
  split; [exact Hp|].
  split.
  { rewrite Hd, Hp. apply Forall2_fmap_l, Forall_Forall2_diag.
    pose proof (indexed_nonblank (walk ix DATA_DIR)) as Hn.
    assert (Hsub : Forall (fun p => ∃ raw, read_text ix p = Ok raw)
                     (indexed ix (walk ix DATA_DIR))).
    { unfold indexed. apply Forall_forall. intros p Hin.
      apply list_elem_of_In, filter_In in Hin as [Hin _].
      rewrite Forall_forall in Hr. apply Hr. now apply list_elem_of_In. }
    rewrite Forall_forall in Hn, Hsub |- *. intros p Hin.
    destruct (Hsub p Hin) as (raw & Hraw). exists raw.
    specialize (Hn p Hin). unfold content in *. rewrite Hraw in *. auto. }
  split; [|auto].
  rewrite Hp. unfold indexed. apply Forall_forall. intros p Hin.
  apply list_elem_of_In, filter_In in Hin as [Hin _].
  apply list_elem_of_In in Hin. unfold candidates in Hin.
  apply list_elem_of_bind in Hin as (d & Hin & Hd').
  apply list_elem_of_fmap in Hin as (f & -> & Hf).
  apply list_elem_of_In, filter_In in Hf as [Hf1 Hf2].
  exists d, f. repeat split; auto. now apply list_elem_of_In.
Qed.

(** X18. A run of the indexer ends with [exit(0)], before anything is
    embedded or added, only when every [.txt] or [.md] file of the walk is
    readable and blank (or there is none). *)
Theorem build_index_nothing (created : bool) :
  build_index ix = Ok (Exit0 created) ->
  indexed ix (walk ix DATA_DIR) = []
  ∧ Forall (fun p => ∃ raw, read_text ix p = Ok raw ∧ py_strip raw = "")
      (candidates (walk ix DATA_DIR)).
Proof.
  unfold build_index, check.
  destruct (connect ix); [discriminate|]. cbn [mbind result_bind].
  destruct (load_model ix EMBEDDING_MODEL); [discriminate|]. cbn [mbind result_bind].
  destruct (match get_collection ix COLLECTION_NAME with
            | Some _ => _ | None => _ end) as [c|e]; [|discriminate].
  cbn [mbind result_bind].
  destruct (index_walk ix (walk ix DATA_DIR) ([], [])) as [[ds ps]|e] eqn:Hw;
    [|discriminate].
  cbn [mbind result_bind fst snd].
  destruct ds as [|d0 ds'].
  2: { destruct (encode_all ix (d0 :: ds')); [|discriminate]. cbn [mbind result_bind].
       destruct (collection_add ix _ _ _); discriminate. }
  intros _. apply index_walk_spec in Hw as [Hr [= Hd Hp]]. cbn [app] in Hd, Hp.
  symmetry in Hd. apply fmap_nil_inv in Hd.
  split; [exact Hd|].
  rewrite Forall_forall in Hr |- *. intros p Hin.
  destruct (Hr p Hin) as (raw & Hraw). exists raw. split; [exact Hraw|].
  destruct (String.eqb_spec (py_strip raw) "") as [H|H]; [exact H|exfalso].
  assert (Hk : p ∈ indexed ix (walk ix DATA_DIR)).
  { unfold indexed. apply list_elem_of_In, filter_In. split; [now apply list_elem_of_In|].
    unfold nonblank, content. rewrite Hraw. apply negb_true_iff.
    now apply String.eqb_neq. }
  rewrite Hd in Hk. inversion Hk.
Qed.

End IndexerProofs.

(** *** The calls of a run *)

(** A call that is not in a list of calls given by its items. *)
Ltac absent H :=
  repeat first
    [ discriminate H
    | apply elem_of_nil in H; contradiction
    | apply elem_of_cons in H as [H|H]
    | apply elem_of_app in H as [H|H]
    | apply list_elem_of_fmap in H as (? & H & _) ].

Ltac no_such_call :=
  unfold not; intros;
  match goal with
  | H : _ ∈ _ |- _ => solve [absent H]
  end.

Section IndexerCallsProofs.
Context {vector : Type} (ix : indexer vector).

Lemma attempted_app_readable (a b : list string) :
  Forall (fun p => ∃ raw, read_text ix p = Ok raw) a ->
  attempted ix (a ++ b) = a ++ attempted ix b.
Proof.
  induction 1 as [|p more (raw & Hr) _ IH]; [reflexivity|].
  simpl. now rewrite Hr, IH.
Qed.

Lemma attempted_readable (paths : list string) :
  Forall (fun p => ∃ raw, read_text ix p = Ok raw) paths ->
  attempted ix paths = paths.
Proof.
  induction 1 as [|p more (raw & Hr) _ IH]; [reflexivity|].
  simpl. now rewrite Hr, IH.
Qed.

Lemma attempted_app_unreadable (a b : list string) :
  ¬ Forall (fun p => ∃ raw, read_text ix p = Ok raw) a ->
  attempted ix (a ++ b) = attempted ix a.
Proof.
  induction a as [|p a IH]; intros H.
  - destruct H. constructor.
  - simpl. destruct (read_text ix p) as [raw|e] eqn:Hr; [|reflexivity].
    rewrite IH; [reflexivity|]. intros Ha. apply H. constructor; eauto.
Qed.

(** The files are opened one after the other, up to the first that cannot
    be read. *)
Lemma traced_files_spec (root : string) (files : list string) :
  ∀ st log,
    traced_files ix root files st log
    = (index_files ix root files st,
       log ++ (Open <$> attempted ix (path_join root <$> List.filter is_text_file files))).
Proof.
  induction files as [|f more IH]; intros st log.
  - simpl. now rewrite app_nil_r.
  - cbn [traced_files index_files List.filter]. unfold traced_file, index_file.
    destruct (is_text_file f); [|apply IH].
    cbn [fmap list_fmap attempted]. unfold mbind at 1 2, traced_bind, called.
    destruct (read_text ix (path_join root f)) as [raw|e]; cbn [mbind result_bind].
    + destruct (String.eqb (py_strip raw) ""); unfold mret, traced_ret;
        rewrite IH, <- app_assoc; reflexivity.
    + reflexivity.
Qed.

Lemma traced_walk_spec (dirs : list (string * list string)) :
  ∀ st log,
    traced_walk ix dirs st log
    = (index_walk ix dirs st, log ++ (Open <$> attempted ix (candidates dirs))).
Proof.
  induction dirs as [|[root files] more IH]; intros st log.
  - simpl. now rewrite app_nil_r.
  - cbn [traced_walk index_walk]. unfold mbind at 1, traced_bind.
    rewrite traced_files_spec, candidates_cons. cbn [fst snd].
    destruct (index_files ix root files st) as [st'|e] eqn:H; cbn [mbind result_bind].
    + apply index_files_spec in H as [Hr _].
      rewrite IH, (attempted_app_readable _ _ Hr), (attempted_readable _ Hr).
      now rewrite fmap_app, app_assoc.
    + rewrite attempted_app_unreadable; [reflexivity|]. intros Hr.
      assert (E : ∃ st', index_files ix root files st = Ok st')
        by (eexists; apply index_files_spec; split; [exact Hr|reflexivity]).
      destruct E as (st' & E). congruence.
Qed.

(** The exception of the loops is the one of the first file that cannot be
    read. *)
Lemma index_files_raise (root : string) (files : list string) :
  ∀ st e,
    index_files ix root files st = Raise e ->
    ∃ before bad after,
      path_join root <$> List.filter is_text_file files = before ++ bad :: after
      ∧ Forall (fun p => ∃ raw, read_text ix p = Ok raw) before
      ∧ read_text ix bad = Raise e.
Proof.
  induction files as [|f more IH]; intros st e; [discriminate|].
  cbn [index_files List.filter]. unfold index_file.
  destruct (is_text_file f); [|apply IH]. cbn [fmap list_fmap].
  destruct (read_text ix (path_join root f)) as [raw|e0] eqn:Hr; cbn [mbind result_bind].
  - intros H.
    assert (H' : ∃ st', index_files ix root more st' = Raise e)
      by (destruct (String.eqb (py_strip raw) ""); eauto).
    destruct H' as (st' & H').
    destruct (IH _ _ H') as (before & bad & after & E & Hb & Hbad).
    exists (path_join root f :: before), bad, after. rewrite E.
    split; [reflexivity|]. split; [constructor; eauto | exact Hbad].
  - intros [= <-]. exists [], (path_join root f), (path_join root <$> List.filter is_text_file more).
    split; [reflexivity|]. split; [constructor | exact Hr].
Qed.

Lemma index_walk_raise (dirs : list (string * list string)) :
  ∀ st e,
    index_walk ix dirs st = Raise e ->
    ∃ before bad after,
      candidates dirs = before ++ bad :: after
      ∧ Forall (fun p => ∃ raw, read_text ix p = Ok raw) before
      ∧ read_text ix bad = Raise e.
Proof.
  induction dirs as [|[root files] more IH]; intros st e; [discriminate|].
  cbn [index_walk]. rewrite candidates_cons. cbn [fst snd].
  destruct (index_files ix root files st) as [st'|e0] eqn:H; cbn [mbind result_bind].
  - intros H'. destruct (IH _ _ H') as (before & bad & after & E & Hb & Hbad).
    apply index_files_spec in H as [Hr _].
    exists ((path_join root <$> List.filter is_text_file files) ++ before), bad, after.
    rewrite E, app_assoc. split; [reflexivity|].
    split; [now apply Forall_app | exact Hbad].
  - intros [= <-]. destruct (index_files_raise _ _ _ _ H) as (before & bad & after & E & Hb & Hbad).
    exists before, bad, (after ++ candidates more).
    rewrite E, <- app_assoc. split; [reflexivity|]. split; assumption.
Qed.

(** The result of the run with its calls is the result of the run. *)
Lemma traced_index_result (log : list (call vector)) :
  (traced_index ix log).1 = build_index ix.
Proof.
  unfold traced_index, build_index, called, check, mbind at 1 2 3 4 5, traced_bind.
  destruct (connect ix); [reflexivity|]. cbn [mbind result_bind].
  destruct (load_model ix EMBEDDING_MODEL); [reflexivity|]. cbn [mbind result_bind].
  assert (H : ∀ created l,
            (match traced_walk ix (walk ix DATA_DIR) ([], []) l with
             | (Ok st, log') =>
               match st.1 with
               | [] => mret (Exit0 created)
               | _ =>
                 embeddings ← called (Encode st.1) (encode_all ix st.1);
                 called (Add st.1 embeddings st.2)
                   (check (collection_add ix st.1 embeddings st.2));;
                 mret (Added created st.1 embeddings st.2)
               end log'
             | (Raise e, log') => (Raise e, log')
             end).1
            = (st ← index_walk ix (walk ix DATA_DIR) ([], []);
               match st.1 with
               | [] => Ok (Exit0 created)
               | _ =>
                 embeddings ← encode_all ix st.1;
                 check (collection_add ix st.1 embeddings st.2);;
                 Ok (Added created st.1 embeddings st.2)
               end)).
  { intros created l. rewrite traced_walk_spec.
    destruct (index_walk ix (walk ix DATA_DIR) ([], [])) as [[ds ps]|e]; [|reflexivity].
    cbn [mbind result_bind fst snd].
    destruct ds as [|d0 ds']; [reflexivity|].
    unfold mbind at 1 2, traced_bind, called, check.
    destruct (encode_all ix (d0 :: ds')) as [embs|e]; [|reflexivity].
    cbn [mbind result_bind].
    destruct (collection_add ix (d0 :: ds') embs ps); reflexivity. }
  destruct (get_collection ix COLLECTION_NAME).
  - unfold mbind at 1, traced_bind, called, check.
    destruct (create_collection ix COLLECTION_NAME); [reflexivity|].
    cbn [mbind result_bind]. unfold mret at 1, traced_ret. apply H.
  - cbn [mbind result_bind]. apply H.
Qed.

(** The calls of a run in which a file cannot be read. *)
Lemma traced_index_unreadable (path : string) (e : exn) :
  path ∈ candidates (walk ix DATA_DIR) ->
  read_text ix path = Raise e ->
  ∃ e' log,
    traced_index ix [] = (Raise e', log)
    ∧ (∀ docs, Encode docs ∉ log)
    ∧ (∀ docs embeddings ids, Add docs embeddings ids ∉ log)
    ∧ (connect ix = None ->
       load_model ix EMBEDDING_MODEL = None ->
       get_collection ix COLLECTION_NAME = None
       ∨ create_collection ix COLLECTION_NAME = None ->
       ∃ before bad after,
         candidates (walk ix DATA_DIR) = before ++ bad :: after
         ∧ Forall (fun p => ∃ raw, read_text ix p = Ok raw) before
         ∧ read_text ix bad = Raise e'
         ∧ log = [Connect; LoadModel EMBEDDING_MODEL; GetCollection COLLECTION_NAME]
                 ++ match get_collection ix COLLECTION_NAME with
                    | Some _ => [CreateCollection COLLECTION_NAME]
                    | None => []
                    end
                 ++ (Open <$> before ++ [bad])).
Proof.
  intros Hin Hr.
  assert (Hw : ∃ e0, index_walk ix (walk ix DATA_DIR) ([], []) = Raise e0).
  { destruct (index_walk ix (walk ix DATA_DIR) ([], [])) as [st|e0] eqn:Hw; [|eauto].
    apply index_walk_spec in Hw as [Hall _].
    rewrite Forall_forall in Hall. destruct (Hall path Hin) as (raw & Hraw). congruence. }
  destruct Hw as (e0 & Hw).
  destruct (index_walk_raise _ _ _ Hw) as (before & bad & after & E & Hb & Hbad).
  assert (Ha : attempted ix (candidates (walk ix DATA_DIR)) = before ++ [bad]).
  { rewrite E, (attempted_app_readable _ _ Hb). simpl. now rewrite Hbad. }
  unfold traced_index, called, check, mbind at 1 2 3 4 5, traced_bind.
  destruct (connect ix) as [c|] eqn:H1; cbn [mbind result_bind app].
  { exists c, [Connect]. split; [reflexivity|].
    split; [|split]; [no_such_call..|discriminate]. }
  destruct (load_model ix EMBEDDING_MODEL) as [c|] eqn:H2; cbn [mbind result_bind app].
  { exists c, [Connect; LoadModel EMBEDDING_MODEL]. split; [reflexivity|].
    split; [|split]; [no_such_call..|discriminate]. }
  destruct (get_collection ix COLLECTION_NAME) as [c0|] eqn:H3.
  - unfold mbind at 1, traced_bind, called, check.
    destruct (create_collection ix COLLECTION_NAME) as [c|] eqn:H4;
      cbn [mbind result_bind app].
    { exists c, [Connect; LoadModel EMBEDDING_MODEL; GetCollection COLLECTION_NAME;
                 CreateCollection COLLECTION_NAME].
      split; [reflexivity|].
      split; [|split]; [no_such_call..|].
      intros _ _ [?|?]; discriminate. }
    unfold mret at 1, traced_ret.
    rewrite traced_walk_spec, Hw, Ha.
    eexists _, _. split; [reflexivity|].
    split; [|split]; [no_such_call..|].
    intros _ _ _. exists before, bad, after. repeat split; assumption.
  - rewrite traced_walk_spec, Hw, Ha.
    eexists _, _. split; [reflexivity|].
    split; [|split]; [no_such_call..|].
    intros _ _ _. exists before, bad, after. repeat split; assumption.
Qed.

(** X17. One [.txt] or [.md] file of the walk that cannot be read makes the
    run of the indexer end with an exception before the model is called for
    embeddings and before [collection.add]: nothing is embedded or added,
    the files that can be read included.  When the set-up succeeds (the
    connection, the model, the collection), the exception is the one of the
    first such file in the order of the walk, and the files after it are not
    opened. *)
Theorem build_index_unreadable_file (path : string) (e : exn) :
  path ∈ candidates (walk ix DATA_DIR) ->
  read_text ix path = Raise e ->
  ∃ e' log,
    traced_index ix [] = (Raise e', log)
    ∧ build_index ix = Raise e'
    ∧ (∀ docs, Encode docs ∉ log)
    ∧ (∀ docs embeddings ids, Add docs embeddings ids ∉ log)
    ∧ (connect ix = None ->
       load_model ix EMBEDDING_MODEL = None ->
       get_collection ix COLLECTION_NAME = None
       ∨ create_collection ix COLLECTION_NAME = None ->
       ∃ before bad after,
         candidates (walk ix DATA_DIR) = before ++ bad :: after
         ∧ Forall (fun p => ∃ raw, read_text ix p = Ok raw) before
         ∧ read_text ix bad = Raise e'
         ∧ log = [Connect; LoadModel EMBEDDING_MODEL; GetCollection COLLECTION_NAME]
                 ++ match get_collection ix COLLECTION_NAME with
                    | Some _ => [CreateCollection COLLECTION_NAME]
                    | None => []
                    end
                 ++ (Open <$> before ++ [bad])).
Proof.
  intros Hin Hr.
  destruct (traced_index_unreadable path e Hin Hr) as (e' & log & Ht & Hrest).
  exists e', log. split; [exact Ht|]. split; [|exact Hrest].
  now rewrite <- (traced_index_result []), Ht.
Qed.

End IndexerCallsProofs.

(** ** Turns one after the other *)

(** [l[-3:]] after an append is [l[-2:]] and the new item. *)
Lemma slice_from_snoc {A} (l : list A) (x : A) :
  slice_from (-3) (l ++ [x]) = slice_from (-2) l ++ [x].
Proof.
  unfold slice_from. simpl. rewrite length_app. simpl.
  replace (Z.to_nat (Z.max 0 (Z.of_nat (length l + 1) + -3)))
    with (Z.to_nat (Z.max 0 (Z.of_nat (length l) + -2))) by lia.
  apply drop_app_le. lia.
Qed.

Section TurnsProofs.
Context {vector : Type} (sv : services vector).

Lemma rephrase_query_long (prompt_ : string) (w : world vector) :
  (3 <= length (py_split prompt_))%nat ->
  ∃ refined,
    rephrase_query sv prompt_ w = (Ok refined, sent (rephrase_request prompt_) w).
Proof.
  intros Hn. unfold rephrase_query.
  destruct (Nat.ltb_spec (length (py_split prompt_)) 3) as [H|_]; [lia|].
  unfold try_except, requests_post, lift, mbind at 1 2 3, M_bind, mret, M_ret, sent.
  destruct (post sv (wire w) (rephrase_request prompt_)) as [res|e]; simpl; [|eauto].
  destruct (ok res); simpl; [|eauto].
  destruct (body_json res ≫= _) as [s|e]; simpl; eauto.
Qed.

(** X19. A turn makes one request for the answer, after one request for the
    rephrasing when the query has at least 3 tokens and none when it has
    fewer; it makes no other request.  The prompt of the rephrasing request
    is [Rephrase this for clarity: ] and the query.  The prompt of the
    answer request is the fixed instructions, then the context built from
    the rephrased query under [Context:] and the rephrased query, which is
    the query itself when it is short, under [User question:]. *)
Theorem turn_requests (query : string) (w : world vector) :
  ∃ refined context,
    (rephrase_query sv query w).1 = Ok refined
    ∧ (build_context sv USER_ID refined (rephrase_query sv query w).2).1 = Ok context
    ∧ wire (turn sv query w).2
      = wire w
        ++ (if (length (py_split query) <? 3)%nat then [] else [rephrase_request query])
        ++ [answer_request refined context]
    ∧ prompt (rephrase_request query) = "Rephrase this for clarity: " +:+ query
    ∧ prompt (answer_request refined context)
      = "You are a DevOps expert assistant." +:+ NL +:+
        "Use the provided context (memory + docs) to give accurate, step-by-step answers."
        +:+ NL +:+
        "If context is missing, answer with your own knowledge." +:+ NL +:+
        NL +:+
        "Context:" +:+ NL +:+
        context +:+ NL +:+
        NL +:+
        "User question:" +:+ NL +:+
        refined +:+ NL +:+
        NL +:+
        "Answer clearly:"
    ∧ ((length (py_split query) < 3)%nat -> refined = query).
Proof.
  assert (H1 : ∃ refined,
             rephrase_query sv query w
             = (Ok refined,
                World (memory w) (conversation_history w)
                  (wire w ++ (if (length (py_split query) <? 3)%nat then []
                              else [rephrase_request query]))
                  (clock w))
             ∧ ((length (py_split query) < 3)%nat -> refined = query)).
  { destruct (Nat.ltb_spec (length (py_split query)) 3) as [H|H].
    - exists query. split; [|reflexivity].
      unfold rephrase_query. apply Nat.ltb_lt in H. rewrite H, app_nil_r.
      now destruct w.
    - destruct (rephrase_query_long query w H) as (refined & E).
      exists refined. split; [exact E | lia]. }
  destruct H1 as (refined & E1 & Hshort).
  destruct (build_context_frame sv USER_ID refined (rephrase_query sv query w).2)
    as (context & E2).
  exists refined, context. rewrite E2. rewrite E1 in E2 |- *. simpl in E2.
  split; [reflexivity|]. split; [reflexivity|].
  split; [|split; [reflexivity|split; [reflexivity|exact Hshort]]].
  destruct (query_ollama_frame sv refined context
              (World (memory w) (conversation_history w)
                 (wire w ++ (if (length (py_split query) <? 3)%nat then []
                             else [rephrase_request query]))
                 (clock w))) as (answer & E3).
  rewrite (turn_run sv _ _ _ _ _ _ _ _ E1 E2 E3).
  match goal with
  | |- context [record_turn sv _ _ ?x] =>
    destruct (record_turn_history sv query answer x) as [_ Hw]
  end.
  rewrite Hw. simpl. now rewrite <- app_assoc.
Qed.

(** The context, section by section. *)
Lemma build_context_run (user_id user_query : string) (w : world vector) :
  ∃ long_term docs,
    build_context sv user_id user_query w
    = (Ok ("Short-term:" +:+ NL +:+
           join NL (format_turn <$> slice_from (- MEMORY_SIZE) (conversation_history w))
           +:+ NL +:+ NL +:+
           "Long-term memory:" +:+ NL +:+ long_term +:+ NL +:+ NL +:+
           "Docs:" +:+ NL +:+ docs), w).
Proof.
  unfold build_context, history, mbind, M_bind. simpl.
  rewrite recall_memory_run. simpl. rewrite search_docs_run. eauto.
Qed.

(** X20. The turn just made is the last one of the short-term section of
    the next context, after the two turns before it, whether or not the
    writes of the turn to the Memory Store succeeded. *)
Theorem turn_then_context (query user_id next_query : string) (w : world vector) :
  ∃ answer long_term docs,
    conversation_history (turn sv query w).2
    = conversation_history w ++ [(query, answer)]
    ∧ build_context sv user_id next_query (turn sv query w).2
      = (Ok ("Short-term:" +:+ NL +:+
             join NL (format_turn <$>
                        (slice_from (-2) (conversation_history w) ++ [(query, answer)]))
             +:+ NL +:+ NL +:+
             "Long-term memory:" +:+ NL +:+ long_term +:+ NL +:+ NL +:+
             "Docs:" +:+ NL +:+ docs), (turn sv query w).2).
Proof.
  destruct (turn_frame sv query w) as (answer & Hh & _).
  destruct (build_context_run user_id next_query (turn sv query w).2)
    as (long_term & docs & E).
  exists answer, long_term, docs. split; [exact Hh|].
  rewrite E, Hh. change (- MEMORY_SIZE) with (-3). now rewrite slice_from_snoc.
Qed.

End TurnsProofs.

(** A short query on the mocked environment: one request, for the answer. *)
Example turn_requests_short :
  prompt <$> wire (turn mock "fix it" w0).2
  = ["You are a DevOps expert assistant." +:+ NL +:+
     "Use the provided context (memory + docs) to give accurate, step-by-step answers."
     +:+ NL +:+
     "If context is missing, answer with your own knowledge." +:+ NL +:+
     NL +:+
     "Context:" +:+ NL +:+
     "Short-term:" +:+ NL +:+ NL +:+ NL +:+
     "Long-term memory:" +:+ NL +:+ NL +:+ NL +:+
     "Docs:" +:+ NL +:+ "[Source: a.md]" +:+ NL +:+ "doc1" +:+ NL +:+ NL +:+
     "[Source: unknown]" +:+ NL +:+ "doc2" +:+ NL +:+
     NL +:+
     "User question:" +:+ NL +:+
     "fix it" +:+ NL +:+
     NL +:+
     "Answer clearly:"].
Proof. vm_compute. reflexivity. Qed.

(** * The theorems at concrete inputs *)

(** C1 at the text [hello]: the id, and one record after two calls. *)
Lemma add_memory_identity_witness :
  mem_id "onkar" "user" "hello" = "onkar_user_5d41402a"
  ∧ ∃ w1 w2,
      add_memory mock "onkar" "hello" "user" w0 = (Ok (), w1)
      ∧ add_memory mock "onkar" "hello" "user" w1 = (Ok (), w2)
      ∧ size (memory w1) = 1%nat
      ∧ size (memory w2) = 1%nat.
Proof.
  pose proof (add_memory_identity mock "onkar" "user" "hello" w0) as H.
  cbv zeta in H. destruct H as (Hid & _ & _ & _ & H).
  destruct (H [5] eq_refl (fun _ _ => eq_refl)) as (E1 & E2 & _ & _ & _ & Hs & Hn).
  split; [vm_compute; reflexivity|].
  eexists _, _. split; [exact E1|]. split; [exact E2|].
  split; [rewrite <- Hs|]; apply Hn; reflexivity.
Defined.

(** C10 at the empty text and a role that is neither [user] nor [agent]. *)
Lemma add_memory_no_validation_witness :
  encode mock "" = Ok [0]
  ∧ upsert_fault mock (memory w0) (mem_id "onkar" "narrator" "")
      (written mock "onkar" "" "narrator" [0] w0) = None
  ∧ ∃ w', add_memory mock "onkar" "" "narrator" w0 = (Ok (), w')
      ∧ memory w' !! "onkar_narrator_d41d8cd9"
        = Some (written mock "onkar" "" "narrator" [0] w0).
Proof.
  split; [reflexivity|]. split; [reflexivity|].
  destruct (add_memory_no_validation mock "onkar" "" "narrator" [0] w0 eq_refl eq_refl)
    as (w' & E & Hl & _).
  exists w'. split; [exact E|].
  change "onkar_narrator_d41d8cd9" with (mem_id "onkar" "narrator" ""). exact Hl.
Defined.

(** C2 for alice and bob, after both have written. *)
Lemma recall_memory_isolation_witness :
  "alice" ≠ "bob"
  ∧ recall_memory mock "alice" "what do I run?" 3 w_two_users
    = (Ok "alice runs nginx", w_two_users)
  ∧ ∀ r, r ∈ recalled mock "alice" "what do I run?" 3 w_two_users ->
         metadata r !! "user_id" = Some (MStr "alice").
Proof.
  assert (Hne : "alice" ≠ "bob") by discriminate.
  split; [exact Hne|].
  destruct (recall_memory_isolation mock "alice" "bob" "what do I run?" 3 w_two_users Hne)
    as (E & Hin & _).
  split.
  - rewrite E. vm_compute. reflexivity.
  - intros r Hr. exact (proj2 (Hin r Hr)).
Defined.

(** C5 when the Memory Store refuses the query. *)
Lemma recall_memory_degrades_witness :
  recall_memory mock_no_recall "alice" "what do I run?" 3 w_two_users
  = (Ok "", w_two_users).
Proof.
  destruct (recall_memory_degrades mock_no_recall "alice" "what do I run?" 3 w_two_users)
    as (_ & H & _).
  exact (H _ eq_refl).
Defined.

(** C4 for the mocked store of the example. *)
Lemma search_docs_format_witness :
  search_docs mock "x" w0 =
  (Ok ("[Source: a.md]" +:+ NL +:+ "doc1" +:+ NL +:+ NL +:+
       "[Source: unknown]" +:+ NL +:+ "doc2"), w0).
Proof.
  exact (proj2 (search_docs_format mock "x" w0) eq_refl).
Defined.

(** C7 when a chunk has no metadata: the formatting raises. *)
Lemma search_docs_contains_failures_witness :
  search_docs mock_bare_docs "x" w0
  = (Ok "[ERROR] search_docs failed: 'NoneType' object has no attribute 'get'", w0).
Proof.
  destruct (search_docs_contains_failures mock_bare_docs "x" w0) as (_ & H & _).
  exact (H _ (Exn "AttributeError" "'NoneType' object has no attribute 'get'")
           eq_refl eq_refl).
Defined.

(** C3 after four turns: the three last ones are shown, oldest first. *)
Lemma build_context_sections_witness :
  build_context mock "onkar" "q5" w_four_turns =
  (Ok ("Short-term:" +:+ NL +:+
       "User: q2" +:+ NL +:+ "Agent: a2" +:+ NL +:+
       "User: q3" +:+ NL +:+ "Agent: a3" +:+ NL +:+
       "User: q4" +:+ NL +:+ "Agent: a4" +:+ NL +:+ NL +:+
       "Long-term memory:" +:+ NL +:+ NL +:+ NL +:+
       "Docs:" +:+ NL +:+
       "[Source: a.md]" +:+ NL +:+ "doc1" +:+ NL +:+ NL +:+
       "[Source: unknown]" +:+ NL +:+ "doc2"), w_four_turns).
Proof.
  destruct (build_context_sections mock "onkar" "q5" w_four_turns)
    as (long_term & docs & Hr & Hd & E & _).
  vm_compute in Hr. injection Hr as <-.
  vm_compute in Hd. injection Hd as <-.
  rewrite E. vm_compute. reflexivity.
Defined.

(** C8 at the prompt [fix it]. *)
Lemma rephrase_query_short_witness :
  (length (py_split "fix it") < 3)%nat
  ∧ rephrase_query mock "fix it" w0 = (Ok "fix it", w0)
  ∧ wire (rephrase_query mock "fix it" w0).2 = wire w0.
Proof.
  assert (H : (length (py_split "fix it") < 3)%nat) by (vm_compute; lia).
  split; [exact H|]. exact (rephrase_query_short mock "fix it" w0 H).
Defined.

(** C6 when the service answers 500: the error answer is in the history and
    in the Memory Store, next to the query. *)
Lemma turn_records_failed_generation_witness :
  let query := "How do I restart nginx?" in
  let err := "[ERROR] Ollama returned 500" in
  ∃ refined context w1 w2,
    rephrase_query mock_500 query w0 = (Ok refined, w1)
    ∧ build_context mock_500 USER_ID refined w1 = (Ok context, w2)
    ∧ generation_failed (post mock_500 (wire w2) (answer_request refined context)) err
    ∧ conversation_history (turn mock_500 query w0).2 = [(query, err)]
    ∧ (turn mock_500 query w0).1 = Ok ()
    ∧ document <$> memory (turn mock_500 query w0).2 !! "onkar_user_ff0f413c" = Some query
    ∧ document <$> memory (turn mock_500 query w0).2 !! "onkar_agent_69c68608" = Some err.
Proof.
  intros query err.
  eexists _, _, _, _.
  split; [vm_compute; reflexivity|].
  split; [vm_compute; reflexivity|].
  assert (Hf : generation_failed
                 (Ok {| status_code := 500;
                        body_json := Raise (Exn "JSONDecodeError" "Expecting value");
                        body_lines := []; broken := None |}) err).
  { apply (bad_status {| status_code := 500;
                         body_json := Raise (Exn "JSONDecodeError" "Expecting value");
                         body_lines := []; broken := None |}).
    discriminate. }
  split; [exact Hf|].
  destruct (turn_records_failed_generation mock_500 query _ _ err w0 _ _
              eq_refl eq_refl Hf) as (_ & _ & Hh & Hm).
  split; [exact Hh|].
  destruct (Hm _ _ eq_refl eq_refl (fun _ _ _ => eq_refl))
    as (rq & ra & Hok & _ & Dq & Da & Lq & La).
  split; [exact Hok|].
  change "onkar_user_ff0f413c" with (mem_id USER_ID "user" query).
  change "onkar_agent_69c68608" with (mem_id USER_ID "agent" err).
  rewrite Lq, La. simpl. rewrite Dq, Da. split; reflexivity.
Defined.

(** C9 when the service rephrases the query: the history and the Memory
    Store hold the text the user entered; the request holds the rephrased
    one. *)
Lemma turn_records_original_query_witness :
  let query := "How do I restart nginx?" in
  let refined := "How can I restart the nginx service?" in
  let answer := "Run systemctl restart nginx" in
  ∃ context w1 w2 w3,
    rephrase_query mock query w0 = (Ok refined, w1)
    ∧ build_context mock USER_ID refined w1 = (Ok context, w2)
    ∧ query_ollama mock refined context w2 = (Ok answer, w3)
    ∧ conversation_history (turn mock query w0).2 = [(query, answer)]
    ∧ wire (turn mock query w0).2
      = [rephrase_request query; answer_request refined context]
    ∧ prompt <$> wire (turn mock query w0).2
      = ["Rephrase this for clarity: How do I restart nginx?";
         "You are a DevOps expert assistant." +:+ NL +:+
         "Use the provided context (memory + docs) to give accurate, step-by-step answers."
         +:+ NL +:+
         "If context is missing, answer with your own knowledge." +:+ NL +:+
         NL +:+
         "Context:" +:+ NL +:+
         context +:+ NL +:+
         NL +:+
         "User question:" +:+ NL +:+
         "How can I restart the nginx service?" +:+ NL +:+
         NL +:+
         "Answer clearly:"]
    ∧ (turn mock query w0).1 = Ok ()
    ∧ ∃ rq, memory (turn mock query w0).2 !! mem_id USER_ID "user" query = Some rq
            ∧ document rq = query.
Proof.
  intros query refined answer.
  eexists _, _, _, _.
  split; [vm_compute; reflexivity|].
  split; [vm_compute; reflexivity|].
  split; [vm_compute; reflexivity|].
  destruct (turn_records_original_query mock query refined _ answer w0 _ _ _
              eq_refl eq_refl eq_refl) as (_ & Hh & Hw & _ & Hm).
  split; [exact Hh|]. split; [exact Hw|].
  split; [rewrite Hw; reflexivity|].
  destruct (Hm _ _ eq_refl eq_refl (fun _ _ _ => eq_refl))
    as (rq & ra & Hok & Hmem & Dq & _).
  split; [exact Hok|].
  exists rq. split; [|exact Dq].
  rewrite Hmem, lookup_insert_ne by (apply not_eq_sym, user_agent_ids).
  apply lookup_insert_eq.
Defined.

(** ** The further properties at concrete inputs *)

(** X1 when the service rephrases. *)
Lemma rephrase_query_outcome_witness :
  (3 <= length (py_split "How do I restart nginx?"))%nat
  ∧ rephrase_query mock "How do I restart nginx?" w0
    = (Ok "How can I restart the nginx service?",
       sent (rephrase_request "How do I restart nginx?") w0).
Proof.
  assert (H : (3 <= length (py_split "How do I restart nginx?"))%nat)
    by (vm_compute; lia).
  split; [exact H|].
  destruct (rephrase_query_outcome mock "How do I restart nginx?" w0 H) as (E & _).
  rewrite E. vm_compute. reflexivity.
Defined.

(** X2 on the mocked stream. *)
Lemma query_ollama_streams_tokens_witness :
  ∃ res,
    post mock (wire w0) (answer_request "q" "c") = Ok res
    ∧ status_code res = 200
    ∧ broken res = None
    ∧ Forall2 (fun line token => line_token mock line = Ok token)
        (body_lines res) ["Run systemctl "; ""; ""; "restart nginx"]
    ∧ query_ollama mock "q" "c" w0
      = (Ok "Run systemctl restart nginx", sent (answer_request "q" "c") w0).
Proof.
  eexists. split; [reflexivity|]. split; [reflexivity|]. split; [reflexivity|].
  assert (Ht : Forall2 (fun line token => line_token mock line = Ok token)
                 ["L1"; ""; "noise"; "L2"] ["Run systemctl "; ""; ""; "restart nginx"])
    by (repeat constructor).
  split; [exact Ht|].
  destruct (query_ollama_streams_tokens mock "q" "c" w0 _ _ eq_refl eq_refl eq_refl Ht)
    as (E & _).
  rewrite E. vm_compute. reflexivity.
Defined.

(** X3 when [json.loads] raises a [ValueError] on a line of the stream: the
    answer is the message of this exception, not the one of the connection
    that breaks afterwards. *)
Lemma query_ollama_aborted_stream_witness :
  ∃ res,
    post mock_digits_line (wire w0) (answer_request "q" "c") = Ok res
    ∧ status_code res = 200
    ∧ body_lines res = ["L1"] ++ "noise" :: ["L2"]
    ∧ line_token mock_digits_line "noise"
      = Raise (Exn "ValueError"
                 "Exceeds the limit (4300 digits) for integer string conversion")
    ∧ query_ollama mock_digits_line "q" "c" w0
      = (Ok "[ERROR] Ollama request failed: Exceeds the limit (4300 digits) for integer string conversion",
         sent (answer_request "q" "c") w0).
Proof.
  eexists. split; [reflexivity|]. split; [reflexivity|]. split; [reflexivity|].
  split; [reflexivity|].
  destruct (query_ollama_aborted_stream mock_digits_line "q" "c" w0 _ eq_refl eq_refl)
    as (H & _).
  rewrite (H ["L1"] "noise" ["L2"] ["Run systemctl "] _ eq_refl
             ltac:(repeat constructor) eq_refl).
  reflexivity.
Defined.

(** X8 on an empty store. *)
Lemma add_memory_then_recall_witness :
  recall_memory mock "onkar" "what did I ask?" 3
    (add_memory mock "onkar" "restart nginx" "user" w0).2
  = (Ok "restart nginx", (add_memory mock "onkar" "restart nginx" "user" w0).2).
Proof.
  destruct (add_memory_then_recall mock "onkar" "restart nginx" "user" "what did I ask?" 3
              w0 [13] [] eq_refl eq_refl eq_refl) as (more & E).
  - lia.
  - vm_compute. reflexivity.
  - rewrite E. revert E. vm_compute. intros E. injection E as E. now rewrite <- E.
Defined.

(** X9 when the result has no [metadatas] key. *)
Lemma search_docs_succeeds_witness :
  search_docs mock_plain_docs "x" w0
  = (Ok ("[Source: unknown]" +:+ NL +:+ "doc1" +:+ NL +:+ NL +:+
         "[Source: unknown]" +:+ NL +:+ "doc2"), w0).
Proof.
  destruct (search_docs_succeeds mock_plain_docs "x" w0 _ [Some "doc1"; Some "doc2"] [] []
              eq_refl eq_refl eq_refl (or_introl eq_refl)) as (_ & E).
  rewrite (E eq_refl). reflexivity.
Defined.

(** X10 when no chunk has metadata. *)
Lemma search_docs_needs_every_metadata_witness :
  ∃ e, search_docs mock_bare_docs "x" w0
       = (Ok ("[ERROR] search_docs failed: " +:+ exn_str e), w0).
Proof.
  destruct (search_docs_needs_every_metadata mock_bare_docs "x" w0 _
              [Some "doc1"; Some "doc2"] [] [None; None] 1
              eq_refl eq_refl eq_refl) as (e & _ & E).
  - discriminate.
  - simpl. lia.
  - now right.
  - exists e. exact E.
Defined.

(** X11 after four turns. *)
Lemma build_context_degraded_witness :
  build_context mock_no_retrieval "onkar" "q5" w_four_turns
  = (Ok ("Short-term:" +:+ NL +:+
         "User: q2" +:+ NL +:+ "Agent: a2" +:+ NL +:+
         "User: q3" +:+ NL +:+ "Agent: a3" +:+ NL +:+
         "User: q4" +:+ NL +:+ "Agent: a4" +:+ NL +:+ NL +:+
         "Long-term memory:" +:+ NL +:+ NL +:+ NL +:+
         "Docs:" +:+ NL +:+ "[ERROR] search_docs failed: vector store unreachable"),
     w_four_turns).
Proof.
  rewrite (build_context_degraded mock_no_retrieval "onkar" "q5" w_four_turns _ _
             eq_refl eq_refl).
  vm_compute. reflexivity.
Defined.

(** X12 when the embedder is down. *)
Lemma turn_failed_write_witness :
  let query := "How do I restart nginx?" in
  ∃ refined context answer w1 w2 w3 e,
    rephrase_query mock_no_embedder query w0 = (Ok refined, w1)
    ∧ build_context mock_no_embedder USER_ID refined w1 = (Ok context, w2)
    ∧ query_ollama mock_no_embedder refined context w2 = (Ok answer, w3)
    ∧ encode mock_no_embedder query = Raise e
    ∧ (turn mock_no_embedder query w0).1 = Raise e
    ∧ conversation_history (turn mock_no_embedder query w0).2 = [(query, answer)]
    ∧ memory (turn mock_no_embedder query w0).2 = ∅
    ∧ main_loop mock_no_embedder [query; "exit"] w0
      = (Raise e, (turn mock_no_embedder query w0).2).
Proof.
  intros query. eexists _, _, _, _, _, _, _.
  split; [vm_compute; reflexivity|].
  split; [vm_compute; reflexivity|].
  split; [vm_compute; reflexivity|].
  split; [reflexivity|].
  destruct (turn_failed_write mock_no_embedder query _ _ _ w0 _ _ _
              eq_refl eq_refl eq_refl) as (H1 & _ & H3).
  destruct (H1 _ eq_refl) as (R & Hh & Hm).
  split; [exact R|]. split; [exact Hh|]. split; [exact Hm|].
  apply H3; [vm_compute; reflexivity | vm_compute | discriminate | exact R].
  intros H. apply elem_of_cons in H as [H|H]; [discriminate|].
  apply elem_of_cons in H as [H|H]; [discriminate|inversion H].
Defined.

(** X14 for two blank lines before the command to leave. *)
Lemma main_loop_idle_lines_witness :
  Forall (fun line => py_strip line = "") ["   "; ""]
  ∧ main_loop mock (["   "; ""] ++ " QUIT " :: ["never read"]) w0 = (Ok (), w0).
Proof.
  assert (H : Forall (fun line => py_strip line = "") ["   "; ""])
    by (repeat constructor).
  split; [exact H|].
  destruct (main_loop_idle_lines mock ["   "; ""] ["never read"] w0 H) as (_ & E & _).
  apply E. vm_compute. now right; left.
Defined.

(** X16 on the mocked data folder. *)
Lemma build_index_added_witness :
  build_index mock_indexer
  = Ok (Added true
          ["systemctl restart nginx"; "rotate the logs weekly"; "kubectl get pods"]
          [[23]; [22]; [16]]
          ["./data/nginx.md"; "./data/notes.txt"; "./data/k8s/pods.txt"])
  ∧ ["./data/nginx.md"; "./data/notes.txt"; "./data/k8s/pods.txt"]
    = indexed mock_indexer (walk mock_indexer DATA_DIR).
Proof.
  assert (E : build_index mock_indexer
              = Ok (Added true
                      ["systemctl restart nginx"; "rotate the logs weekly"; "kubectl get pods"]
                      [[23]; [22]; [16]]
                      ["./data/nginx.md"; "./data/notes.txt"; "./data/k8s/pods.txt"]))
    by (vm_compute; reflexivity).
  split; [exact E|].
  destruct (build_index_added mock_indexer _ _ _ _ E) as (_ & _ & H & _). exact H.
Defined.

(** X17 when one document is not UTF-8: the run opens the document before
    it and this one, and ends with the exception of this one. *)
Lemma build_index_unreadable_file_witness :
  "./data/notes.txt" ∈ candidates (walk mock_indexer_unreadable DATA_DIR)
  ∧ traced_index mock_indexer_unreadable []
    = (Raise (Exn "UnicodeDecodeError" "'utf-8' codec can't decode byte 0xff"),
       [Connect; LoadModel "all-MiniLM-L6-v2"; GetCollection "devops_mini";
        CreateCollection "devops_mini";
        Open "./data/nginx.md"; Open "./data/notes.txt"])
  ∧ build_index mock_indexer_unreadable
    = Raise (Exn "UnicodeDecodeError" "'utf-8' codec can't decode byte 0xff").
Proof.
  assert (H : "./data/notes.txt" ∈ candidates (walk mock_indexer_unreadable DATA_DIR)).
  { vm_compute. right. left. }
  split; [exact H|].
  destruct (build_index_unreadable_file mock_indexer_unreadable "./data/notes.txt" _ H
              eq_refl) as (e' & log & Ht & Hb & _).
  assert (E : (Raise e', log)
              = (Raise (Exn "UnicodeDecodeError" "'utf-8' codec can't decode byte 0xff"),
                 [Connect; LoadModel "all-MiniLM-L6-v2"; GetCollection "devops_mini";
                  CreateCollection "devops_mini";
                  Open "./data/nginx.md"; Open "./data/notes.txt"]))
    by (rewrite <- Ht; vm_compute; reflexivity).
  injection E as -> ->. split; [exact Ht | exact Hb].
Defined.

(** X18 on a data folder without text. *)
Lemma build_index_nothing_witness :
  build_index mock_indexer_blank = Ok (Exit0 true)
  ∧ indexed mock_indexer_blank (walk mock_indexer_blank DATA_DIR) = [].
Proof.
  assert (E : build_index mock_indexer_blank = Ok (Exit0 true)) by (vm_compute; reflexivity).
  split; [exact E|].
  exact (proj1 (build_index_nothing mock_indexer_blank true E)).
Defined.
